(** * flo: fluent expressions and lazy pipelines

    A shallow embedding of the core of the [flo] package
    ([flo/lamb.py], [flo/pipeline.py], [flo/it2.py], [flo/attempt.py])
    and the properties its specification states about it.

    Layout: the embedding comes first, one module per Python module;
    the theorems follow. *)

From Stdlib Require Import List String Ascii ZArith QArith Bool Lia DecimalString.
Import ListNotations.
Set Warnings "-register-all".
Local Open Scope string_scope.
Local Open Scope Z_scope.

(** ** Python values, exceptions and results *)

(** An instance of a subclass of [Exception]: its class name, its first
    constructor argument (the message) and, when it was built as
    [type(ee)(message, ee)], the exception [ee] it carries.  Exceptions that
    derive from [BaseException] only (exits, interrupts) are not modelled,
    and neither are classes that derive from [StopIteration]. *)
Inductive exn : Type :=
| mkExn (kind : string) (msg : string) (inner : option exn).

Definition kind_of (e : exn) : string := let 'mkExn k _ _ := e in k.
Definition msg_of (e : exn) : string := let 'mkExn _ m _ := e in m.
Definition inner_of (e : exn) : option exn := let 'mkExn _ _ i := e in i.

Definition TypeError (m : string) : exn := mkExn "TypeError" m None.
Definition ValueError (m : string) : exn := mkExn "ValueError" m None.

(** [isinstance(e, StopIteration)]: the exception by which the [__next__]
    of an iterator says that the enumeration is over. *)
Definition is_stop_iteration (e : exn) : bool :=
  String.eqb (kind_of e) "StopIteration".

(** How an enumeration ends when [__next__] raises [fault]: a
    [StopIteration] is the normal end, anything else reaches the
    consumer. *)
Definition ended (fault : option exn) : option exn :=
  match fault with
  | Some e => if is_stop_iteration e then None else Some e
  | None => None
  end.

(** The exception that leaves a generator whose body raised [e]: the
    interpreter replaces a [StopIteration] by a [RuntimeError]. *)
Definition generator_raised (e : exn) : exn :=
  if is_stop_iteration e
  then mkExn "RuntimeError" "generator raised StopIteration" None
  else e.

(** The outcome of evaluating a Python expression: a value, or a raised
    exception. *)
Inductive result (A : Type) : Type :=
| Ok (a : A)
| Raise (e : exn).
Arguments Ok {A} a.
Arguments Raise {A} e.

Definition bind {A B : Type} (r : result A) (k : A -> result B) : result B :=
  match r with
  | Ok a => k a
  | Raise e => Raise e
  end.

Notation "x <- r ;; k" := (bind r (fun x => k))
  (at level 61, r at next level, right associativity).
Notation "' p <- r ;; k" := (bind r (fun x => let 'p := x in k))
  (at level 61, p pattern, r at next level, right associativity).

(** The objects that flow through expressions and pipelines.  [VFloat q]
    is a finite float of exact value [q].  [VGen xs f] is an iterator seen
    through what its [__next__] does: it returns the elements [xs] one by
    one, and then raises [StopIteration] ([f = None]) or the exception
    [f]. *)
Inductive val : Type :=
| VNone
| VBool (b : bool)
| VInt (z : Z)
| VFloat (q : Q)
| VStr (s : string)
| VTuple (xs : list val)
| VList (xs : list val)
| VGen (xs : list val) (fault : option exn).

(** What enumerating an iterable produces: the elements yielded, and the
    exception that ended the enumeration, if one did.  A [StopIteration]
    ends an enumeration normally and is never that exception. *)
Definition stream : Type := (list val * option exn)%type.

(** Keyword arguments, as a function receives them in [**kwargs]: a
    [dict] in insertion order.  A call binds a keyword that names a
    parameter of the function to that parameter, or refuses it when the
    parameter has a value already, so the names of the function's own
    parameters are not among them. *)
Definition kwargs : Type := list (string * val).

(** [bool(v)]. *)
Definition truthy (v : val) : bool :=
  match v with
  | VNone => false
  | VBool b => b
  | VInt z => negb (z =? 0)
  | VFloat q => negb (Qeq_bool q 0)
  | VStr s => negb (String.eqb s "")
  | VTuple xs | VList xs => match xs with [] => false | _ => true end
  | VGen _ _ => true
  end.

(** [type(v).__name__]. *)
Definition type_name (v : val) : string :=
  match v with
  | VNone => "NoneType"
  | VBool _ => "bool"
  | VInt _ => "int"
  | VFloat _ => "float"
  | VStr _ => "str"
  | VTuple _ => "tuple"
  | VList _ => "list"
  | VGen _ _ => "generator"
  end.

(** The number a numeric object denotes ([True] is 1, [False] is 0). *)
Definition num_of (v : val) : option Q :=
  match v with
  | VBool b => Some (if b then 1%Q else 0%Q)
  | VInt z => Some (inject_Z z)
  | VFloat q => Some q
  | _ => None
  end.

Definition Qlt_bool (x y : Q) : bool := negb (Qle_bool y x).

(** [a == b].  Numbers compare by value across [bool], [int] and [float];
    sequences element by element; iterators, which compare by identity,
    are equal to nothing here. *)
Fixpoint py_eq (a b : val) : bool :=
  match num_of a, num_of b with
  | Some x, Some y => Qeq_bool x y
  | _, _ =>
      match a, b with
      | VNone, VNone => true
      | VStr s, VStr t => String.eqb s t
      | VTuple xs, VTuple ys | VList xs, VList ys =>
          (fix all_eq (xs ys : list val) : bool :=
             match xs, ys with
             | [], [] => true
             | x :: xs', y :: ys' => py_eq x y && all_eq xs' ys'
             | _, _ => false
             end) xs ys
      | _, _ => false
      end
  end.

Definition not_supported (op : string) (a b : val) : exn :=
  TypeError ("'" ++ op ++ "' not supported between instances of '"
             ++ type_name a ++ "' and '" ++ type_name b ++ "'").

(** [a < b] ([strict = true]) and [a <= b] ([strict = false]): numbers by
    value, strings and sequences lexicographically, [TypeError] for any
    other pair. *)
Fixpoint py_order (strict : bool) (a b : val) : result bool :=
  let op := if strict then "<" else "<=" in
  match num_of a, num_of b with
  | Some x, Some y => Ok (if strict then Qlt_bool x y else Qle_bool x y)
  | _, _ =>
      match a, b with
      | VStr s, VStr t => Ok (if strict then String.ltb s t else String.leb s t)
      | VTuple xs, VTuple ys | VList xs, VList ys =>
          (fix lex (xs ys : list val) : result bool :=
             match xs, ys with
             | [], [] => Ok (negb strict)
             | [], _ :: _ => Ok true
             | _ :: _, [] => Ok false
             | x :: xs', y :: ys' =>
                 if py_eq x y then lex xs' ys' else py_order strict x y
             end) xs ys
      | _, _ => Raise (not_supported op a b)
      end
  end.

Definition py_lt : val -> val -> result bool := py_order true.

(** [str(n)] for an integer. *)
Definition str_int (z : Z) : string := NilEmpty.string_of_int (Z.to_int z).

(** [len(v) if isinstance(v, Sized) else '?'], formatted. *)
Definition len_or_unknown (v : val) : string :=
  match v with
  | VStr s => str_int (Z.of_nat (String.length s))
  | VTuple xs | VList xs => str_int (Z.of_nat (List.length xs))
  | _ => "?"
  end.

(** [iter(v)]: the stream of an iterable, [TypeError] for anything else. *)
Definition iter_ (v : val) : result stream :=
  match v with
  | VStr s => Ok (List.map (fun c => VStr (String c "")) (list_ascii_of_string s), None)
  | VTuple xs | VList xs => Ok (xs, None)
  | VGen xs f => Ok (xs, ended f)
  | _ => Raise (TypeError ("'" ++ type_name v ++ "' object is not iterable"))
  end.

(** Enumerating [v]: a value that is not iterable fails before its first
    element. *)
Definition stream_of (v : val) : stream :=
  match iter_ v with
  | Ok s => s
  | Raise e => ([], Some e)
  end.

(** The classes of the exceptions that the package and the interpreter
    raise by themselves here.  They inherit the constructor of
    [Exception], which takes any arguments: a message and an exception,
    for one. *)
Definition plain_classes : list string :=
  ["TypeError"; "ValueError"; "KeyError"; "RuntimeError"].

(** The built-in conversions and the exception classes that the package
    uses and does not define. *)
Class PyBuiltins : Type := {
  py_repr : val -> string;       (* repr(v) *)
  py_str : val -> string;        (* str(v) *)
  py_float : string -> result Q; (* float(s): the number read, or ValueError *)
  (* cls(message, ee) for the exception class named: the new instance, or
     what the constructor of the class raises *)
  py_new : string -> string -> exn -> result exn;
  py_new_plain : forall cls message ee,
    In cls plain_classes ->
    py_new cls message ee = Ok (mkExn cls message (Some ee))
}.

(** [raise type(ee)(message, ee)]: the exception that is raised. *)
Definition reraise `{PyBuiltins} (ee : exn) (message : string) : exn :=
  match py_new (kind_of ee) message ee with
  | Ok new => new
  | Raise refused => refused
  end.

(** ** flo/lamb.py *)
Module lamb.

(** [class Lambda]: [_parent] and [_accessor] are [None] for [start]. *)
Inductive Lambda : Type :=
| mkLambda (_parent : option Lambda) (_accessor : option (val -> result val))
           (name_ : string).

Definition parent_of (l : Lambda) : option Lambda :=
  let 'mkLambda p _ _ := l in p.
Definition name_of (l : Lambda) : string :=
  let 'mkLambda _ _ n := l in n.

(** [self._accessor(p)]; calling [None] is a [TypeError]. *)
Definition call_accessor (a : option (val -> result val)) (p : val) : result val :=
  match a with
  | Some f => f p
  | None => Raise (TypeError "'NoneType' object is not callable")
  end.

(** [Lambda.invoke], once the call has bound [self] and [instance]: [kw]
    holds the other keyword arguments, which are handed to the parent and
    reach no accessor. *)
Fixpoint invoke (self : Lambda) (instance : val) (kw : kwargs) : result val :=
  match self with
  | mkLambda parent accessor _ =>
      match parent with
      | Some (mkLambda _ (Some _) _ as p) =>
          p' <- invoke p instance kw ;;
          call_accessor accessor p'
      | _ =>
          match accessor with
          | Some f => f instance
          | None => Ok instance
          end
      end
  end.

(** [Lambda.__repr__] (and [__str__]). *)
Fixpoint repr (self : Lambda) : string :=
  match self with
  | mkLambda None _ n => if String.eqb n "" then "unknown" else n
  | mkLambda (Some p) _ n => repr p ++ n
  end.

(** [start = Lambda(name_='_', parent=None, accessor=None)], also [e_]. *)
Definition start : Lambda := mkLambda None None "_".
Definition e_ : Lambda := start.

(** A callable that is not a [Lambda]: a function, with its [__name__] and
    the text [inspect.getsource] returns for it, or the bound method
    [l.invoke] (what [l.f] and the comparison operators return).  A plain
    function that is itself named [invoke] is outside this model. *)
Inductive Callable : Type :=
| PyFunction (name : string) (source : string)
             (body : list val -> kwargs -> result val)
| BoundInvoke (self : Lambda).

(** [c.__name__]. *)
Definition callable_name (c : Callable) : string :=
  match c with
  | PyFunction n _ _ => n
  | BoundInvoke _ => "invoke"
  end.

(** The first keyword of [kw] that names one of [parameters], to which
    the call has given a value by position already. *)
Fixpoint bound_twice (parameters : list string) (kw : kwargs) : option string :=
  match kw with
  | [] => None
  | (k, _) :: rest =>
      if existsb (String.eqb k) parameters then Some k
      else bound_twice parameters rest
  end.

Definition multiple_values (function name : string) : exn :=
  TypeError (function ++ "() got multiple values for argument '" ++ name ++ "'").

(** [kw[name]], and [kw] without that keyword. *)
Fixpoint keyword (name : string) (kw : kwargs) : option val :=
  match kw with
  | [] => None
  | (k, v) :: rest => if String.eqb k name then Some v else keyword name rest
  end.

Definition without (name : string) (kw : kwargs) : kwargs :=
  List.filter (fun '(k, _) => negb (String.eqb k name)) kw.

(** [c] called with positional arguments [args] and keyword arguments
    [kw].  The signature of the bound method is
    [invoke(self, instance, **kwargs)]: [self] is bound, [instance] is
    given by position or by keyword, and a keyword that names a parameter
    which has its value already is refused. *)
Definition call (c : Callable) (args : list val) (kw : kwargs) : result val :=
  match c with
  | PyFunction _ _ body => body args kw
  | BoundInvoke l =>
      match args with
      | [instance] =>
          match bound_twice ["self"; "instance"] kw with
          | Some name => Raise (multiple_values "Lambda.invoke" name)
          | None => invoke l instance kw
          end
      | [] =>
          match bound_twice ["self"] kw with
          | Some name => Raise (multiple_values "Lambda.invoke" name)
          | None =>
              match keyword "instance" kw with
              | Some instance => invoke l instance (without "instance" kw)
              | None =>
                  Raise (TypeError
                    "Lambda.invoke() missing 1 required positional argument: 'instance'")
              end
          end
      | _ =>
          match bound_twice ["self"; "instance"] kw with
          | Some name => Raise (multiple_values "Lambda.invoke" name)
          | None =>
              Raise (TypeError
                ("Lambda.invoke() takes 2 positional arguments but "
                 ++ str_int (Z.of_nat (S (List.length args))) ++ " were given"))
          end
      end
  end.

(** [FunctionOrLambda], and what callers may pass in its place: any other
    object. *)
Inductive FunctionOrLambda : Type :=
| IsLambda (l : Lambda)
| IsCallable (c : Callable)
| IsValue (v : val).

(** The second component of what [as_name_function] returns: a callable,
    or the object that was passed where one was expected. *)
Inductive Callee : Type :=
| Fn (c : Callable)
| NotCallable (v : val).

(** Calling such an object with [args] and [kw]. *)
Definition call_object (f : Callee) (args : list val) (kw : kwargs)
  : result val :=
  match f with
  | Fn c => call c args kw
  | NotCallable v =>
      Raise (TypeError ("'" ++ type_name v ++ "' object is not callable"))
  end.

(** [s[:-1]]. *)
Definition drop_last (s : string) : string :=
  substring 0 (Nat.pred (String.length s)) s.


(** The character classes of the interval pattern
    [\s*([[(])\s*([0-9._]+)\s*,\s*([0-9._]+)\s*([])])\s*].  A character is
    a code point below 256; [\s] on text is Unicode white space. *)
Definition is_space (c : ascii) : bool :=
  let n := nat_of_ascii c in
  (((9 <=? n) && (n <=? 13)) || ((28 <=? n) && (n <=? 32))
   || (n =? 133) || (n =? 160))%nat.

Definition is_number_char (c : ascii) : bool :=
  let n := nat_of_ascii c in
  (((48 <=? n) && (n <=? 57)) || (n =? 46) || (n =? 95))%nat.

Definition is_left_brace (c : ascii) : bool :=
  Ascii.eqb c "[" || Ascii.eqb c "(".

Definition is_right_brace (c : ascii) : bool :=
  Ascii.eqb c "]" || Ascii.eqb c ")".

(** [\s*]: greedy, and nothing that follows it in the pattern is a space. *)
Fixpoint skip_spaces (s : string) : string :=
  match s with
  | String c r => if is_space c then skip_spaces r else s
  | EmptyString => EmptyString
  end.

(** [[0-9._]*]: the longest prefix in the class, and the rest. *)
Fixpoint take_number (s : string) : string * string :=
  match s with
  | String c r =>
      if is_number_char c
      then let (n, rest) := take_number r in (String c n, rest)
      else (EmptyString, s)
  | EmptyString => (EmptyString, EmptyString)
  end.

(** [re.fullmatch] of the interval pattern: the four groups.  The classes
    of neighbouring pattern items are disjoint, so the greedy scan is the
    only way to match. *)
Definition fullmatch_between (s : string) : option (ascii * string * string * ascii) :=
  match skip_spaces s with
  | String lb s1 =>
      if is_left_brace lb then
        let (ls, s2) := take_number (skip_spaces s1) in
        match ls, skip_spaces s2 with
        | String _ _, String comma s3 =>
            if Ascii.eqb comma "," then
              let (rs, s4) := take_number (skip_spaces s3) in
              match rs, skip_spaces s4 with
              | String _ _, String rb s5 =>
                  if is_right_brace rb then
                    match skip_spaces s5 with
                    | EmptyString => Some (lb, ls, rs, rb)
                    | _ => None
                    end
                  else None
              | _, _ => None
              end
            else None
        | _, _ => None
        end
      else None
  | EmptyString => None
  end.

(** [left, right = xs]. *)
Definition unpack2 (xs : list val) : result (val * val) :=
  match xs with
  | [l; r] => Ok (l, r)
  | _ :: _ :: _ :: _ => Raise (ValueError "too many values to unpack (expected 2)")
  | _ => Raise (ValueError ("not enough values to unpack (expected 2, got "
                            ++ str_int (Z.of_nat (List.length xs)) ++ ")"))
  end.

(** [left <= e <= right] and its three variants: the second comparison is
    evaluated only when the first holds. *)
Definition chained (strict_l strict_r : bool) (left e right : val) : result val :=
  b <- py_order strict_l left e ;;
  if (b : bool) then (b' <- py_order strict_r e right ;; Ok (VBool b'))
  else Ok (VBool false).

Section WithBuiltins.
Context `{PyBuiltins}.

(** [kwarg_str]. *)
Definition kwarg_str (kw : kwargs) : string :=
  match kw with
  | [] => ""
  | _ => "(_, " ++ String.concat ", "
           (List.map (fun '(k, v) => k ++ "=" ++ py_repr v) kw) ++ ")"
  end.

(** [constant]. *)
Definition constant (value : val) : Lambda :=
  mkLambda None (Some (fun _ => Ok value)) (py_str value).

(** [Lambda.apply]: the accessor is [partial(fcn, **kwargs)]. *)
Definition apply (self : Lambda) (fcn : Callable) (kw : kwargs) : Lambda :=
  mkLambda (Some self) (Some (fun p => call fcn [p] kw))
           (".apply(" ++ callable_name fcn ++ kwarg_str kw ++ ")").

(** [Lambda.negate]. *)
Definition negate (self : Lambda) : Lambda :=
  mkLambda (Some self) (Some (fun e => Ok (VBool (negb (truthy e))))) " not".

(** [Lambda.is_none] and [Lambda.not_none]. *)
Definition is_none (self : Lambda) : Lambda :=
  mkLambda (Some self)
           (Some (fun e => Ok (VBool match e with VNone => true | _ => false end)))
           " is None".

Definition not_none (self : Lambda) : Lambda :=
  mkLambda (Some self)
           (Some (fun e => Ok (VBool match e with VNone => false | _ => true end)))
           " is not None".

(** [Lambda.f]. *)
Definition f (self : Lambda) : Callable := BoundInvoke self.

(** [Lambda.__eq__], [__ne__], [__lt__] and [__le__]: each returns the
    bound [invoke] of the new node. *)
Definition __eq__ (self : Lambda) (other : val) : Callable :=
  f (mkLambda (Some self) (Some (fun e => Ok (VBool (py_eq e other))))
              ("==" ++ py_str other)).

Definition __ne__ (self : Lambda) (other : val) : Callable :=
  f (mkLambda (Some self) (Some (fun e => Ok (VBool (negb (py_eq e other)))))
              ("!=" ++ py_str other)).

Definition __lt__ (self : Lambda) (other : val) : Callable :=
  f (mkLambda (Some self) (Some (fun e => b <- py_lt e other ;; Ok (VBool b)))
              ("<" ++ py_str other)).


(** [as_fcn]. *)
Definition as_fcn (function_or_lambda : FunctionOrLambda) : Callable :=
  match function_or_lambda with
  | IsLambda l => f l
  | IsCallable c => c
  | IsValue v => f (constant v)
  end.

(** [name_for]. *)
Definition name_for (function_or_lambda : FunctionOrLambda) : string :=
  match function_or_lambda with
  | IsLambda l => repr l
  | IsCallable (PyFunction name source _) =>
      if String.eqb name "<lambda>" then drop_last source else name
  | IsCallable (BoundInvoke self) => repr self
  | IsValue v => py_str v
  end.

(** [as_name_function]. *)
Definition as_name_function (fl : FunctionOrLambda) : string * Callee :=
  match fl with
  | IsLambda l => (repr l, Fn (f l))
  | IsCallable c => (name_for fl, Fn c)
  | IsValue v => (name_for fl, NotCallable v)
  end.

(** [interpret_between]; [right = None] is [UNASSIGNED]. *)
Definition interpret_between (left : val) (right : option val)
    (left_inclusive right_inclusive : bool) : result (val * val * bool * bool) :=
  match right with
  | Some r => Ok (left, r, left_inclusive, right_inclusive)
  | None =>
      match left with
      | VStr s =>
          match fullmatch_between s with
          | None => Raise (ValueError ("Unrecognized between spec '" ++ s ++ "'"))
          | Some (left_brace, left_str, right_str, right_brace) =>
              let left_inclusive := Ascii.eqb left_brace "[" in
              let right_inclusive := Ascii.eqb right_brace "]" in
              left <- py_float left_str ;;
              right <- py_float right_str ;;
              Ok (VFloat left, VFloat right, left_inclusive, right_inclusive)
          end
      | VTuple xs =>
          '(l, r) <- unpack2 xs ;; Ok (l, r, false, false)
      | VList xs =>
          '(l, r) <- unpack2 xs ;; Ok (l, r, true, true)
      | _ => Raise (ValueError
               "right not specified but first argument isn't str, list, or tuple")
      end
  end.

(** [Lambda.between]. *)
Definition between (self : Lambda) (left : val) (right : option val)
    (left_inclusive right_inclusive : bool) : result Lambda :=
  '(l, r, left_inclusive, right_inclusive) <-
    interpret_between left right left_inclusive right_inclusive ;;
  let left := l in
  let right := r in
  let span := py_str left ++ "," ++ py_str right in
  Ok (if left_inclusive then
        if right_inclusive then
          mkLambda (Some self) (Some (fun e => chained false false left e right))
                   (" in [" ++ span ++ "]")
        else
          mkLambda (Some self) (Some (fun e => chained false true left e right))
                   (" in [" ++ span ++ ")")
      else
        if right_inclusive then
          mkLambda (Some self) (Some (fun e => chained true false left e right))
                   (" in (" ++ span ++ "]")
        else
          mkLambda (Some self) (Some (fun e => chained true true left e right))
                   (" in (" ++ span ++ ")")).

End WithBuiltins.

End lamb.

(** ** flo/pipeline.py *)
Module pipeline.
Import lamb.

(** A step maps an iterable to an iterable; building the new iterable can
    itself raise (a generator expression calls [iter] on its source at
    once). *)
Definition Transform : Type := val -> result val.

(** The iterator object with stream [s]. *)
Definition gen (s : stream) : val := VGen (fst s) (snd s).

(** [(f(e) for e in it)], enumerated.  What [f] raises leaves the body of
    a generator. *)
Fixpoint gen_map (f : val -> result val) (xs : list val) (fault : option exn)
  : stream :=
  match xs with
  | [] => ([], fault)
  | e :: rest =>
      match f e with
      | Ok y => let (ys, fl) := gen_map f rest fault in (y :: ys, fl)
      | Raise ex => ([], Some (generator_raised ex))
      end
  end.

(** [(e for e in it if f(e))] for [wanted = true] and
    [(e for e in it if not f(e))] for [wanted = false], enumerated. *)
Fixpoint gen_filter (wanted : bool) (f : val -> result val) (xs : list val)
    (fault : option exn) : stream :=
  match xs with
  | [] => ([], fault)
  | e :: rest =>
      match f e with
      | Ok b =>
          let (ys, fl) := gen_filter wanted f rest fault in
          if Bool.eqb (truthy b) wanted then (e :: ys, fl) else (ys, fl)
      | Raise ex => ([], Some (generator_raised ex))
      end
  end.

(** [(e for ee in it for e in ee)], enumerated. *)
Fixpoint gen_flatten (xs : list val) (fault : option exn) : stream :=
  match xs with
  | [] => ([], fault)
  | ee :: rest =>
      match iter_ ee with
      | Ok (ys, None) => let (zs, fl) := gen_flatten rest fault in ((ys ++ zs)%list, fl)
      | Ok (ys, Some ex) => (ys, Some (generator_raised ex))
      | Raise ex => ([], Some (generator_raised ex))
      end
  end.

(** [zip(e, it)], enumerated: the first iterator is advanced first. *)
Fixpoint zip_streams (xs : list val) (fx : option exn) (ys : list val)
    (fy : option exn) : stream :=
  match xs with
  | [] => ([], fx)
  | x :: xs' =>
      match ys with
      | [] => ([], fy)
      | y :: ys' =>
          let (zs, fl) := zip_streams xs' fx ys' fy in (VTuple [x; y] :: zs, fl)
      end
  end.

(** [itertools.chain(e, it)], enumerated: [it] is opened when [e] ends. *)
Definition chain_streams (e it : val) : stream :=
  match stream_of e with
  | (xs, Some ex) => (xs, Some ex)
  | (xs, None) => let (ys, fl) := stream_of it in ((xs ++ ys)%list, fl)
  end.

(** [itertools.dropwhile(f, it)], enumerated.  What [f] raises is raised
    by the [__next__] of the iterator: a [StopIteration] ends the
    enumeration. *)
Fixpoint drop_while (f : val -> result val) (xs : list val) (fault : option exn)
  : stream :=
  match xs with
  | [] => ([], fault)
  | e :: rest =>
      match f e with
      | Ok b => if truthy b then drop_while f rest fault else (e :: rest, fault)
      | Raise ex => ([], ended (Some ex))
      end
  end.

(** [itertools.takewhile(f, it)], enumerated: nothing is read after the
    first element that fails the test.  What [f] raises is raised by the
    [__next__] of the iterator. *)
Fixpoint take_while (f : val -> result val) (xs : list val) (fault : option exn)
  : stream :=
  match xs with
  | [] => ([], fault)
  | e :: rest =>
      match f e with
      | Ok b =>
          if truthy b
          then let (ys, fl) := take_while f rest fault in (e :: ys, fl)
          else ([], None)
      | Raise ex => ([], ended (Some ex))
      end
  end.

(** [class Pipeline]. *)
Record Pipeline : Type := mkPipeline {
  label : string;
  steps : list Transform
}.

(** [def pipeline(label)]. *)
Definition pipeline (label : string) : Pipeline := mkPipeline label [].

(** [Pipeline._with]. *)
Definition _with (self : Pipeline) (additional_label : string)
    (additional_step : Transform) : Pipeline :=
  mkPipeline (label self ++ " " ++ additional_label)
             (steps self ++ [additional_step])%list.



(** What the handler of [Pipeline.apply] raises in place of [ee]:
    [raise type(ee)(f"Failed to iterate to item {n + 1} in flo.Pipeline({label})", ee)]. *)
Definition failure `{PyBuiltins} (n : Z) (label : string) (ee : exn) : exn :=
  reraise ee ("Failed to iterate to item " ++ str_int (n + 1)
              ++ " in flo.Pipeline(" ++ label ++ ")").

(** [for step in self.steps: transformed = step(transformed)]. *)
Fixpoint run_steps (steps : list Transform) (transformed : val) : result val :=
  match steps with
  | [] => Ok transformed
  | step :: rest => t <- step transformed ;; run_steps rest t
  end.

(** [for n, e in enumerate(transformed): yield e], from index [i] on: the
    elements yielded and the last value assigned to [n]. *)
Fixpoint enumerate_loop (i n : Z) (xs : list val) : list val * Z :=
  match xs with
  | [] => ([], n)
  | e :: rest =>
      let (ys, n') := enumerate_loop (i + 1) i rest in (e :: ys, n')
  end.

(** [Pipeline.apply] (and [__call__]), enumerated by the caller.  The
    method is a generator: what its handler raises leaves the body of a
    generator. *)
Definition apply `{PyBuiltins} (self : Pipeline) (it : val) : stream :=
  let n := -1 in
  match (transformed <- run_steps (steps self) it ;; iter_ transformed) with
  | Raise ee => ([], Some (generator_raised (failure n (label self) ee)))
  | Ok (xs, fault) =>
      let (ys, n) := enumerate_loop 0 n xs in
      match fault with
      | None => (ys, None)
      | Some ee => (ys, Some (generator_raised (failure n (label self) ee)))
      end
  end.


Section WithBuiltins.
Context `{PyBuiltins}.

(** [f"{type(it)}[{len(it) if isinstance(it, Sized) else '?'}]"]. *)
Definition type_and_size (it : val) : string :=
  "<class '" ++ type_name it ++ "'>[" ++ len_or_unknown it ++ "]".

(** [Pipeline.map]. *)
Definition map (self : Pipeline) (mapper : FunctionOrLambda) (kw : kwargs)
  : Pipeline :=
  let '(label, f) := as_name_function mapper in
  _with self ("* " ++ label ++ kwarg_str kw)
    (fun it => '(xs, fault) <- iter_ it ;;
               Ok (gen (gen_map (fun e => call_object f [e] kw) xs fault))).

(** [Pipeline.filter] (also [where], [filter_in]). *)
Definition filter (self : Pipeline) (true_condition : FunctionOrLambda)
    (kw : kwargs) : Pipeline :=
  let '(label, f) := as_name_function true_condition in
  _with self ("/ " ++ skip_spaces label ++ kwarg_str kw)
    (fun it => '(xs, fault) <- iter_ it ;;
               Ok (gen (gen_filter true (fun e => call_object f [e] kw) xs fault))).

(** [Pipeline.exclude] (also [without], [filter_out]). *)
Definition exclude (self : Pipeline) (excluded_condition : FunctionOrLambda)
    (kw : kwargs) : Pipeline :=
  let '(label, f) := as_name_function excluded_condition in
  _with self ("/ not " ++ skip_spaces label ++ kwarg_str kw)
    (fun it => '(xs, fault) <- iter_ it ;;
               Ok (gen (gen_filter false (fun e => call_object f [e] kw) xs fault))).

(** [Pipeline.flatten]. *)
Definition flatten (self : Pipeline) : Pipeline :=
  _with self "* flatten"
    (fun it => '(xs, fault) <- iter_ it ;; Ok (gen (gen_flatten xs fault))).

(** [Pipeline.flatmap]. *)
Definition flatmap (self : Pipeline) (mapper : FunctionOrLambda) (kw : kwargs)
  : Pipeline :=
  flatten (map self mapper kw).

(** [Pipeline.zip_with]. *)
Definition zip_with (self : Pipeline) (it : val) : Pipeline :=
  _with self ("zip(" ++ type_and_size it)
    (fun e => '(xs, fx) <- iter_ e ;;
              '(ys, fy) <- iter_ it ;;
              Ok (gen (zip_streams xs fx ys fy))).

(** [Pipeline.chain]. *)
Definition chain (self : Pipeline) (it : val) : Pipeline :=
  _with self ("chain(" ++ type_and_size it)
    (fun e => Ok (gen (chain_streams e it))).

(** [Pipeline.dropwhile]: the keyword arguments go into the label only. *)
Definition dropwhile (self : Pipeline) (condition : FunctionOrLambda)
    (kw : kwargs) : Pipeline :=
  let '(label, f) := as_name_function condition in
  _with self ("dropwhile(" ++ skip_spaces label ++ kwarg_str kw)
    (fun it => '(xs, fault) <- iter_ it ;;
               Ok (gen (drop_while (fun e => call_object f [e] []) xs fault))).

(** [Pipeline.takewhile]: the keyword arguments go into the label only. *)
Definition takewhile (self : Pipeline) (condition : FunctionOrLambda)
    (kw : kwargs) : Pipeline :=
  let '(label, f) := as_name_function condition in
  _with self ("takewhile(" ++ skip_spaces label ++ kwarg_str kw)
    (fun it => '(xs, fault) <- iter_ it ;;
               Ok (gen (take_while (fun e => call_object f [e] []) xs fault))).


End WithBuiltins.

End pipeline.

(** ** flo/pipeline.py: [Pipeline] objects and their attributes *)
Module objects.
Import lamb pipeline.

(** The methods of [Pipeline] are called on objects, and an object can be
    assigned to.  A heap holds the attributes [label] and [steps] of every
    [Pipeline] object; a reference is the position of an object in it. *)
Definition Heap : Type := list Pipeline.
Definition ref : Type := nat.

(** An object none of whose attributes has been assigned. *)
Definition blank : Pipeline := mkPipeline "" [].

Definition deref (h : Heap) (r : ref) : Pipeline := nth r h blank.

(** A method reads and writes the heap and returns a value. *)
Definition Method (A : Type) : Type := Heap -> A * Heap.

Definition ret {A : Type} (a : A) : Method A := fun h => (a, h).

Definition and_then {A B : Type} (m : Method A) (k : A -> Method B) : Method B :=
  fun h => let (a, h') := m h in k a h'.

Notation "x <~ m ;; k" := (and_then m (fun x => k))
  (at level 61, m at next level, right associativity).

(** [r.label] and [r.steps]. *)
Definition get_label (r : ref) : Method string :=
  fun h => (label (deref h r), h).

Definition get_steps (r : ref) : Method (list Transform) :=
  fun h => (steps (deref h r), h).

(** The heap in which the object at [r] is [g] of what it was. *)
Fixpoint update (r : ref) (g : Pipeline -> Pipeline) (h : Heap) : Heap :=
  match h, r with
  | [], _ => []
  | o :: rest, O => g o :: rest
  | o :: rest, S r' => o :: update r' g rest
  end.

(** [r.label = value] and [r.steps = value]. *)
Definition set_label (r : ref) (value : string) : Method unit :=
  fun h => (tt, update r (fun o => mkPipeline value (steps o)) h).

Definition set_steps (r : ref) (value : list Transform) : Method unit :=
  fun h => (tt, update r (fun o => mkPipeline (label o) value) h).

(** A new object, before [__init__] runs on it. *)
Definition allocate : Method ref :=
  fun h => (List.length h, (h ++ [blank])%list).

(** [Pipeline.__init__]. *)
Definition __init__ (self : ref) (label : string) (steps : list Transform)
  : Method unit :=
  _ <~ set_label self label ;;
  set_steps self steps.

(** [Pipeline(label, steps)]. *)
Definition new (label : string) (steps : list Transform) : Method ref :=
  self <~ allocate ;;
  _ <~ __init__ self label steps ;;
  ret self.

(** [def pipeline(label)]. *)
Definition pipeline (label : string) : Method ref := new label [].

(** [Pipeline._with]. *)
Definition _with (self : ref) (additional_label : string)
    (additional_step : Transform) : Method ref :=
  l <~ get_label self ;;
  st <~ get_steps self ;;
  new (l ++ " " ++ additional_label) (st ++ [additional_step])%list.

Section WithBuiltins.
Context `{PyBuiltins}.

(** [Pipeline.map]. *)
Definition map (self : ref) (mapper : FunctionOrLambda) (kw : kwargs)
  : Method ref :=
  let '(label, f) := as_name_function mapper in
  _with self ("* " ++ label ++ kwarg_str kw)
    (fun it => '(xs, fault) <- iter_ it ;;
               Ok (gen (gen_map (fun e => call_object f [e] kw) xs fault))).

(** [Pipeline.filter]. *)
Definition filter (self : ref) (true_condition : FunctionOrLambda)
    (kw : kwargs) : Method ref :=
  let '(label, f) := as_name_function true_condition in
  _with self ("/ " ++ skip_spaces label ++ kwarg_str kw)
    (fun it => '(xs, fault) <- iter_ it ;;
               Ok (gen (gen_filter true (fun e => call_object f [e] kw) xs fault))).

(** [Pipeline.exclude]. *)
Definition exclude (self : ref) (excluded_condition : FunctionOrLambda)
    (kw : kwargs) : Method ref :=
  let '(label, f) := as_name_function excluded_condition in
  _with self ("/ not " ++ skip_spaces label ++ kwarg_str kw)
    (fun it => '(xs, fault) <- iter_ it ;;
               Ok (gen (gen_filter false (fun e => call_object f [e] kw) xs fault))).

(** [Pipeline.flatten]. *)
Definition flatten (self : ref) : Method ref :=
  _with self "* flatten"
    (fun it => '(xs, fault) <- iter_ it ;; Ok (gen (gen_flatten xs fault))).

(** [Pipeline.flatmap]: the object that [map] returns is the [self] of
    [flatten]. *)
Definition flatmap (self : ref) (mapper : FunctionOrLambda) (kw : kwargs)
  : Method ref :=
  mapped <~ map self mapper kw ;;
  flatten mapped.

(** [Pipeline.zip_with]. *)
Definition zip_with (self : ref) (it : val) : Method ref :=
  _with self ("zip(" ++ type_and_size it)
    (fun e => '(xs, fx) <- iter_ e ;;
              '(ys, fy) <- iter_ it ;;
              Ok (gen (zip_streams xs fx ys fy))).

(** [Pipeline.chain]. *)
Definition chain (self : ref) (it : val) : Method ref :=
  _with self ("chain(" ++ type_and_size it)
    (fun e => Ok (gen (chain_streams e it))).

(** [Pipeline.dropwhile]. *)
Definition dropwhile (self : ref) (condition : FunctionOrLambda)
    (kw : kwargs) : Method ref :=
  let '(label, f) := as_name_function condition in
  _with self ("dropwhile(" ++ skip_spaces label ++ kwarg_str kw)
    (fun it => '(xs, fault) <- iter_ it ;;
               Ok (gen (drop_while (fun e => call_object f [e] []) xs fault))).

(** [Pipeline.takewhile]. *)
Definition takewhile (self : ref) (condition : FunctionOrLambda)
    (kw : kwargs) : Method ref :=
  let '(label, f) := as_name_function condition in
  _with self ("takewhile(" ++ skip_spaces label ++ kwarg_str kw)
    (fun it => '(xs, fault) <- iter_ it ;;
               Ok (gen (take_while (fun e => call_object f [e] []) xs fault))).

End WithBuiltins.

End objects.

(** ** flo/it2.py *)
Module it2.

(** [class CachingIt] over an upstream iterable [_src] whose enumeration
    may differ from one run to the next: a run depends on the state of the
    world and changes it. *)
Section CachingIt.
Variable World : Type.
Variable _src : World -> stream * World.

(** The mutable part of a [CachingIt] object. *)
Record CachingIt : Type := mkCachingIt { _cache : list val }.

(** [CachingIt.__init__]. *)
Definition init : CachingIt := mkCachingIt [].

(** [for e in self._src: self._cache.append(e); yield e]: the elements
    yielded and the cache afterwards. *)
Fixpoint fill (cache : list val) (xs : list val) : list val * list val :=
  match xs with
  | [] => ([], cache)
  | e :: rest => let (ys, c) := fill (cache ++ [e])%list rest in (e :: ys, c)
  end.

(** [CachingIt.__iter__], enumerated to its end by one caller: what the
    caller sees, the object and the world afterwards. *)
Definition iter (self : CachingIt) (w : World) : stream * CachingIt * World :=
  match _cache self with
  | _ :: _ => ((_cache self, None), self, w)
  | [] =>
      let '((xs, fault), w') := _src w in
      let (ys, cache) := fill (_cache self) xs in
      match fault with
      | None => ((ys, None), mkCachingIt cache, w')
      | Some _ => ((ys, None), mkCachingIt [], w')
      end
  end.

End CachingIt.

End it2.

(** ** flo/attempt.py *)
Module attempt.
Import lamb.

(** [class Attempt]; [None] stands for [UNASSIGNED]. *)
Record Attempt : Type := mkAttempt {
  _result : option val;
  _exception : option exn
}.

(** [Attempt(result=v)] and [Attempt(exception=e)]. *)
Definition of_result (v : val) : Attempt := mkAttempt (Some v) None.
Definition of_exception (e : exn) : Attempt := mkAttempt None (Some e).

(** [Attempt.succeeded] and [Attempt.failed]. *)
Definition succeeded (self : Attempt) : bool :=
  match _result self with Some _ => true | None => false end.

Definition failed (self : Attempt) : bool :=
  match _exception self with Some _ => true | None => false end.

(** [Attempt.exception]. *)
Definition exception (self : Attempt) : option exn := _exception self.

(** [Attempt.result]; raising [UNASSIGNED] is itself a [TypeError]. *)
Definition result (self : Attempt) : result val :=
  match _result self with
  | None =>
      match _exception self with
      | Some e => Raise e
      | None => Raise (TypeError "exceptions must derive from BaseException")
      end
  | Some v => Ok v
  end.

Section WithBuiltins.
Context `{PyBuiltins}.

(** [try_]. *)
Definition try_ (fcn : FunctionOrLambda) (args : list val) (kw : kwargs)
  : Attempt :=
  let f := as_fcn fcn in
  match call f args kw with
  | Ok v => of_result v
  | Raise e => of_exception e
  end.

(** [Attempt.and_then]. *)
Definition and_then (self : Attempt) (fcn : FunctionOrLambda) (kw : kwargs)
  : Attempt :=
  if succeeded self then
    match _result self with
    | Some v => try_ fcn [v] kw
    | None => self
    end
  else self.

End WithBuiltins.

(** [Attempt.or_else], without the logging. *)
Definition or_else (self : Attempt) (default : val) : val :=
  match _result self with
  | Some v => v
  | None => default
  end.

End attempt.

(** ** Vocabulary of the properties *)
Module props.
Import lamb.

(** The accessors along a chain, root first. *)
Fixpoint accessors (l : Lambda) : list (val -> result val) :=
  match l with
  | mkLambda p a _ =>
      (match p with Some p' => accessors p' | None => [] end)
      ++ (match a with Some g => [g] | None => [] end)
  end%list.

(** Their composition in that order, started at [x]; the first exception
    raised ends it. *)
Definition compose (gs : list (val -> result val)) (x : val) : result val :=
  fold_left (fun r g => bind r g) gs (Ok x).

(** A chain as the builder methods make them: every node that has a parent
    was given an accessor.  Only a root ([start], or a [constant]) can lack
    a parent. *)
Fixpoint is_chain (l : Lambda) : bool :=
  match l with
  | mkLambda None _ _ => true
  | mkLambda (Some p) (Some _) _ => is_chain p
  | mkLambda (Some _) None _ => false
  end.

(** Every character of [s] is in the class [p]. *)
Fixpoint all_chars (p : ascii -> bool) (s : string) : bool :=
  match s with
  | EmptyString => true
  | String c r => p c && all_chars p r
  end.

(** [c in s]. *)
Fixpoint contains (c : ascii) (s : string) : bool :=
  match s with
  | EmptyString => false
  | String d r => Ascii.eqb c d || contains c r
  end.

(** A bound as the interval pattern accepts it: one or more characters
    among digits, dots and underscores. *)
Definition number_text (s : string) : bool :=
  match s with
  | EmptyString => false
  | _ => all_chars is_number_char s
  end.

(** Interval notation: the bracket for an inclusive or exclusive end. *)
Definition left_bracket (inclusive : bool) : ascii :=
  if inclusive then "[" else "(".
Definition right_bracket (inclusive : bool) : ascii :=
  if inclusive then "]" else ")".

(** An interval in mathematical notation, with white space [w0] .. [w5]
    wherever the pattern allows it: [w0 [ w1 ls w2 , w3 rs w4 ) w5]. *)
Definition interval_text (w0 : string) (a : bool) (w1 ls w2 w3 rs w4 : string)
    (b : bool) (w5 : string) : string :=
  w0 ++ String (left_bracket a)
          (w1 ++ ls ++ w2 ++ String "," (w3 ++ rs ++ w4
             ++ String (right_bracket b) w5)).

(** The interval test on numbers: [l <= x] or [l < x], and [x <= r] or
    [x < r]. *)
Definition in_interval (a b : bool) (l x r : Q) : bool :=
  (if a then Qle_bool l x else Qlt_bool l x)
  && (if b then Qle_bool x r else Qlt_bool x r).

(** The characters the interval pattern can consume. *)
Definition pattern_char (c : ascii) : bool :=
  is_space c || is_left_brace c || is_number_char c
  || Ascii.eqb c "," || is_right_brace c.

(** Enumerating the steps of [P] over [s] with no handler around them:
    the elements produced and the exception that stops them, if any.  An
    exception raised while the steps are being put together stops the
    enumeration before its first element. *)
Definition enumeration (P : pipeline.Pipeline) (s : val) : stream :=
  match (transformed <- pipeline.run_steps (pipeline.steps P) s ;; iter_ transformed) with
  | Ok st => st
  | Raise e => ([], Some e)
  end.

(** The message of the exception [Pipeline.apply] raises when it names
    item [k] of the pipeline labelled [label]. *)
Definition failed_at (k : Z) (label : string) : string :=
  "Failed to iterate to item " ++ str_int k ++ " in flo.Pipeline(" ++ label ++ ")".


(** The constructor of the exception class [cls] takes a message and an
    exception, as that of [Exception] does: [cls(message, ee)] is an
    instance of [cls] that holds the two. *)
Definition takes_message_and_exception `{PyBuiltins} (cls : string) : Prop :=
  forall message ee, py_new cls message ee = Ok (mkExn cls message (Some ee)).

(** The attempt [a] holds the outcome [r] of a call and nothing else:
    exactly one of its two fields is set, to the value that the call
    returned or to the exception that it raised, and [result()] returns
    that value or raises that exception. *)
Definition holds (a : attempt.Attempt) (r : result val) : Prop :=
  xorb (attempt.succeeded a) (attempt.failed a) = true
  /\ match r with
     | Ok v =>
         attempt._result a = Some v /\ attempt._exception a = None
         /\ attempt.result a = Ok v
     | Raise e =>
         attempt._result a = None /\ attempt._exception a = Some e
         /\ attempt.result a = Raise e
     end.


End props.

(** ** Stand-ins for the built-ins, to run examples *)
Module demo.

(** A group of digits, where single underscores may separate digits:
    its value and the number of its digits.  [after_digit] says whether
    the character before [s] was a digit. *)
Fixpoint digitpart (after_digit : bool) (acc : Z) (count : nat) (s : string)
  : option (Z * nat) :=
  match s with
  | EmptyString => if after_digit then Some (acc, count) else None
  | String c r =>
      let n := nat_of_ascii c in
      if ((48 <=? n) && (n <=? 57))%nat
      then digitpart true (10 * acc + Z.of_nat (n - 48)) (S count) r
      else if Ascii.eqb c "_" && after_digit then digitpart false acc count r
      else None
  end.

(** The text before the first dot, and the text after it if there is one. *)
Fixpoint split_dot (s : string) : string * option string :=
  match s with
  | EmptyString => (EmptyString, None)
  | String c r =>
      if Ascii.eqb c "."
      then (EmptyString, Some r)
      else let (before, after) := split_dot r in (String c before, after)
  end.

(** The decimal number that a text of digits, underscores and at most one
    dot writes, if it writes one: [12], [1_000], [1.5], [.5], [2.]. *)
Definition decimal (s : string) : option Q :=
  match split_dot s with
  | (whole, None) =>
      match digitpart false 0 0 whole with
      | Some (z, _) => Some (inject_Z z)
      | None => None
      end
  | (whole, Some fraction) =>
      let w := match whole with
               | EmptyString => Some (0, O)
               | _ => digitpart false 0 0 whole
               end in
      let f := match fraction with
               | EmptyString => Some (0, O)
               | _ => digitpart false 0 0 fraction
               end in
      match whole, fraction, w, f with
      | EmptyString, EmptyString, _, _ => None
      | _, _, Some (zw, _), Some (zf, k) =>
          let scale := 10 ^ Z.of_nat k in
          Some (Qmake (zw * scale + zf) (Z.to_pos scale))
      | _, _, _, _ => None
      end
  end.

(** The double nearest to a rational that is not negative, ties to the
    even significand.  Rationals below the smallest normal double or
    above the largest double are outside this function. *)
Definition nearest_double (q : Q) : Q :=
  let n := Qnum q in
  let d := Zpos (Qden q) in
  if n <=? 0 then 0%Q
  else
    let scaled (e : Z) : Z * Z :=
      if 0 <=? e then (n, d * 2 ^ e) else (n * 2 ^ (- e), d) in
    let e0 := Z.log2 n - Z.log2 d - 53 in
    let e := (let (a, b) := scaled e0 in
              if 2 ^ 53 <=? a / b then e0 + 1 else e0) in
    let (a, b) := scaled e in
    let m := a / b in
    let r := a mod b in
    let m := if (b <? 2 * r) || ((b =? 2 * r) && Z.odd m) then m + 1 else m in
    if 0 <=? e then inject_Z (m * 2 ^ e)
    else Qred (Qmake m (Z.to_pos (2 ^ (- e)))).

(** [float] on the texts the interval pattern lets through, made of
    digits, dots and underscores.  Texts with any other character (a
    sign, an exponent, white space), which no bound of an interval text
    has, are outside this stand-in. *)
Definition float_of_text (s : string) : result Q :=
  match decimal s with
  | Some q => Ok (nearest_double q)
  | None => Raise (ValueError ("could not convert string to float: '" ++ s ++ "'"))
  end.

(** [str] ([quote = false]) and [repr] ([quote = true]) of [None],
    booleans, integers, strings of printable characters without quote or
    backslash, and lists and tuples of these.  Floats and iterators are
    outside this stand-in and print as their type name. *)
Fixpoint show (quote : bool) (v : val) : string :=
  match v with
  | VNone => "None"
  | VBool b => if b then "True" else "False"
  | VInt z => str_int z
  | VStr s => if quote then "'" ++ s ++ "'" else s
  | VList xs => "[" ++ String.concat ", " (List.map (show true) xs) ++ "]"
  | VTuple [x] => "(" ++ show true x ++ ",)"
  | VTuple xs => "(" ++ String.concat ", " (List.map (show true) xs) ++ ")"
  | _ => "<" ++ type_name v ++ ">"
  end.

(** The classes whose constructor does not take a message and an
    exception: the three take four or five arguments. *)
Definition new (cls message : string) (ee : exn) : result exn :=
  if String.eqb cls "UnicodeDecodeError" || String.eqb cls "UnicodeEncodeError"
  then Raise (TypeError "function takes exactly 5 arguments (2 given)")
  else if String.eqb cls "UnicodeTranslateError"
  then Raise (TypeError "function takes exactly 4 arguments (2 given)")
  else Ok (mkExn cls message (Some ee)).

Definition builtins : PyBuiltins :=
  {| py_repr := show true;
     py_str := show false;
     py_float := float_of_text;
     py_new := new;
     py_new_plain := ltac:(
       intros cls message ee Hin; cbn in Hin;
       repeat (destruct Hin as [<- | Hin]; [reflexivity |]);
       contradiction) |}.

(** The list [[0, 1, ..., n - 1]], which is [list(range(n))]. *)
Definition range (n : nat) : val :=
  VList (List.map (fun i => VInt (Z.of_nat i)) (seq 0 n)).

(** [list]: drains an iterable into a list. *)
Definition list_ : lamb.Callable :=
  lamb.PyFunction "list" ""
    (fun args _ =>
       match args with
       | [it] => '(xs, fault) <- iter_ it ;;
                 match fault with
                 | None => Ok (VList xs)
                 | Some e => Raise e
                 end
       | _ => Raise (TypeError "list expected at most 1 argument")
       end).

(** [len]. *)
Definition len_ : lamb.Callable :=
  lamb.PyFunction "len" ""
    (fun args _ =>
       match args with
       | [VList xs] | [VTuple xs] => Ok (VInt (Z.of_nat (List.length xs)))
       | _ => Raise (TypeError "object has no len()")
       end).

(** [def below(e, *, limit): return e < limit]. *)
Definition below : lamb.Callable :=
  lamb.PyFunction "below" ""
    (fun args kw =>
       match args, kw with
       | [e], [(k, limit)] =>
           if String.eqb k "limit"
           then b <- py_lt e limit ;; Ok (VBool b)
           else Raise (TypeError "below() got an unexpected keyword argument")
       | _, _ =>
           Raise (TypeError
             "below() missing 1 required keyword-only argument: 'limit'")
       end).

(** [def boom(e): raise ValueError("no")]. *)
Definition boom : lamb.Callable :=
  lamb.PyFunction "boom" "" (fun _ _ => Raise (ValueError "no")).


(** [def undecodable(e): return b"\xff".decode()], which raises a
    [UnicodeDecodeError]. *)
Definition undecodable : lamb.Callable :=
  lamb.PyFunction "undecodable" ""
    (fun _ _ =>
       Raise (mkExn "UnicodeDecodeError"
                "'utf-8' codec can't decode byte 0xff in position 0: invalid start byte"
                None)).

(** [def first_of_nothing(e): return next(iter(()))], which raises
    [StopIteration]. *)
Definition first_of_nothing : lamb.Callable :=
  lamb.PyFunction "first_of_nothing" ""
    (fun _ _ => Raise (mkExn "StopIteration" "" None)).

(** An upstream that yields nothing on its first run and [[1]] after that;
    the world counts the runs. *)
Definition late_source (runs : nat) : stream * nat :=
  (match runs with O => ([], None) | S _ => ([VInt 1], None) end, S runs).

(** An upstream that yields 1 and 2 and then raises. *)
Definition failing_source (runs : nat) : stream * nat :=
  (([VInt 1; VInt 2], Some (ValueError "no")), S runs).

End demo.

(** ** flo/lamb.py, the remaining predicates *)
Module lamb_rest.
Import lamb.

(** The built-in [bool], as [Lambda.truthy] passes it to [apply]. *)
Definition bool_ : Callable :=
  PyFunction "bool" ""
    (fun args kw =>
       match kw, args with
       | _ :: _, _ => Raise (TypeError "bool() takes no keyword arguments")
       | [], [] => Ok (VBool false)
       | [], [x] => Ok (VBool (truthy x))
       | [], _ => Raise (TypeError "bool expected at most 1 argument")
       end).

Section WithBuiltins.
Context `{PyBuiltins}.

(** [Lambda.truthy] and [Lambda.falsey]. *)
Definition truthy (self : Lambda) : Lambda := lamb.apply self bool_ [].

Definition falsey (self : Lambda) : Lambda := negate (lamb.apply self bool_ []).

(** [Lambda.__invert__]. *)
Definition __invert__ (self : Lambda) : Lambda := negate self.

(** [Lambda.apply_]. *)
Definition apply_ (self : Lambda) (fcn : Callable) : Callable :=
  f (lamb.apply self fcn []).

End WithBuiltins.

End lamb_rest.

(** ** flo/pipeline.py and flo/it2.py: [index] and [unique_index] *)
Module indexing.
Import lamb.

(** A [dict] in insertion order. *)
Definition dict (A : Type) : Type := list (val * A).

(** [hash(k)] succeeds: lists, and tuples that hold one, are unhashable. *)
Fixpoint hashable (k : val) : bool :=
  match k with
  | VList _ => false
  | VTuple xs =>
      (fix all_hashable (xs : list val) : bool :=
         match xs with
         | [] => true
         | x :: xs' => hashable x && all_hashable xs'
         end) xs
  | _ => true
  end.

(** A key as a [dict] operation takes it. *)
Definition as_key (k : val) : result val :=
  if hashable k then Ok k else Raise (TypeError "unhashable type: 'list'").

(** [d.get(k)] for a hashable [k]: the stored key is compared with [k].
    Iterators, which hash and compare by identity, never meet an equal
    key here. *)
Fixpoint dict_get {A : Type} (d : dict A) (k : val) : option A :=
  match d with
  | [] => None
  | (k', v) :: rest => if py_eq k' k then Some v else dict_get rest k
  end.

(** [d[k] = v] for a hashable [k]: an equal key keeps its place and its
    stored key; a new key goes last. *)
Fixpoint dict_set {A : Type} (d : dict A) (k : val) (v : A) : dict A :=
  match d with
  | [] => [(k, v)]
  | (k', v') :: rest =>
      if py_eq k' k then (k', v) :: rest else (k', v') :: dict_set rest k v
  end.

(** The loop of [index] from the dictionary [d] on: what it builds or the
    exception that stops it, and the last value of [e]. *)
Fixpoint index_loop (f : val -> result val) (d : dict (list val)) (e : val)
    (xs : list val) (fault : option exn) : result (dict (list val)) * val :=
  match xs with
  | [] => (match fault with None => Ok d | Some ex => Raise ex end, e)
  | e :: rest =>
      match (k <- f e ;; as_key k) with
      | Ok k =>
          let v := match dict_get d k with Some v => v | None => [] end in
          index_loop f (dict_set d k (v ++ [e])%list) e rest fault
      | Raise ex => (Raise ex, e)
      end
  end.

Section WithBuiltins.
Context `{PyBuiltins}.

(** [KeyError(f"Non-unique keys for {label}({e}{kwargstr}) = {k}")]. *)
Definition non_unique (label kwargstr : string) (e k : val) : exn :=
  mkExn "KeyError"
        ("Non-unique keys for " ++ label ++ "(" ++ py_str e ++ kwargstr ++ ") = "
         ++ py_str k)
        None.

(** [type(ee)(f"Failed to index {it} with {label}({e}{kwargstr})", ee)]. *)
Definition failed_to_index (it : val) (label kwargstr : string) (e : val)
    (ee : exn) : exn :=
  reraise ee ("Failed to index " ++ py_str it ++ " with " ++ label ++ "("
              ++ py_str e ++ kwargstr ++ ")").

(** The loop of [unique_index]. *)
Fixpoint unique_loop (label kwargstr : string) (f : val -> result val)
    (d : dict val) (e : val) (xs : list val) (fault : option exn)
  : result (dict val) * val :=
  match xs with
  | [] => (match fault with None => Ok d | Some ex => Raise ex end, e)
  | e :: rest =>
      match (k <- f e ;; as_key k) with
      | Ok k =>
          match dict_get d k with
          | Some _ => (Raise (non_unique label kwargstr e k), e)
          | None => unique_loop label kwargstr f (dict_set d k e) e rest fault
          end
      | Raise ex => (Raise ex, e)
      end
  end.

(** [index]. *)
Definition index (it : val) (key : FunctionOrLambda) (kw : kwargs)
  : result (dict (list val)) :=
  let '(label, f) := as_name_function key in
  let kwargstr := kwarg_str kw in
  let '(outcome, e) :=
    match iter_ it with
    | Ok (xs, fault) =>
        index_loop (fun e => call_object f [e] kw) [] VNone xs fault
    | Raise ee => (Raise ee, VNone)
    end in
  match outcome with
  | Ok d => Ok d
  | Raise ee => Raise (failed_to_index it label kwargstr e ee)
  end.

(** [unique_index]. *)
Definition unique_index (it : val) (key : FunctionOrLambda) (kw : kwargs)
  : result (dict val) :=
  let '(label, f) := as_name_function key in
  let kwargstr := kwarg_str kw in
  let '(outcome, e) :=
    match iter_ it with
    | Ok (xs, fault) =>
        unique_loop label kwargstr (fun e => call_object f [e] kw) [] VNone xs fault
    | Raise ee => (Raise ee, VNone)
    end in
  match outcome with
  | Ok d => Ok d
  | Raise ee => Raise (failed_to_index it label kwargstr e ee)
  end.

End WithBuiltins.

End indexing.

(** ** flo/check.py *)
Module check.
Import lamb.



Section WithBuiltins.
Context `{PyBuiltins}.





End WithBuiltins.

End check.

(** ** Vocabulary of the further properties *)
Module props_rest.
Import lamb.

(** The fragments a node displays, root first; a root without a name shows
    as [unknown]. *)
Fixpoint fragments (l : Lambda) : list string :=
  match l with
  | mkLambda None _ n => [if String.eqb n "" then "unknown" else n]
  | mkLambda (Some p) _ n => (fragments p ++ [n])%list
  end.

(** The test of a predicate that returns a plain boolean on every element
    of [xs]: [holds e] is what it returns on [e]. *)
Definition decides (g : val -> result val) (holds : val -> bool) (xs : list val)
  : Prop :=
  Forall (fun e => g e = Ok (VBool (holds e))) xs.



(** The caching wrappers that enumerations, each run to its end, can
    produce from a fresh one. *)
Inductive reachable (World : Type) (_src : World -> stream * World)
  : it2.CachingIt -> Prop :=
| reachable_init : reachable World _src it2.init
| reachable_iter (c : it2.CachingIt) (w : World) :
    reachable World _src c ->
    reachable World _src (snd (fst (it2.iter World _src c w))).



(** A well-formed attempt: exactly one of result and exception is set. *)
Definition one_branch (a : attempt.Attempt) : bool :=
  xorb (attempt.succeeded a) (attempt.failed a).

End props_rest.

(** ** More functions to run examples *)
Module demo_rest.






(** An upstream that yields the number of its run, a different sequence
    on every run. *)
Definition counting_source (runs : nat) : stream * nat :=
  (([VInt (Z.of_nat runs)], None), S runs).

End demo_rest.

(** * Properties *)

(** ** Expression nodes *)
Section ExpressionNodes.
Import lamb props.

Lemma Lambda_parent_ind (P : Lambda -> Prop) :
  (forall a n, P (mkLambda None a n)) ->
  (forall p a n, P p -> P (mkLambda (Some p) a n)) ->
  forall l, P l.
Proof.
  intros Hroot Hchild. fix IH 1.
  intros [[p|] a n].
  - apply Hchild, IH.
  - apply Hroot.
Qed.

Lemma compose_snoc gs g x : compose (gs ++ [g]) x = bind (compose gs x) g.
Proof. unfold compose. now rewrite fold_left_app. Qed.

Lemma invoke_chain (C : Lambda) (x : val) (kw : kwargs) :
  is_chain C = true -> invoke C x kw = compose (accessors C) x.
Proof.
  induction C as [a n | p a n IH] using Lambda_parent_ind; intros Hc.
  - destruct a; reflexivity.
  - destruct a as [g|]; [|discriminate Hc].
    cbn [is_chain] in Hc. cbn [accessors]. rewrite compose_snoc.
    destruct p as [pp [pa|] pn].
    + rewrite <- (IH Hc). reflexivity.
    + destruct pp; [discriminate Hc|]. reflexivity.
Qed.

(** C1. Invoking a chain on [x] is the composition of its nodes'
    accessors, parent before child, started at [x]; the root [start]
    returns [x] itself, and a node whose parent is the root applies its own
    accessor to [x] and nothing else. *)
Theorem invoke_composes_accessors (C : Lambda) (x : val) (kw : kwargs) :
  is_chain C = true ->
  invoke C x kw = compose (accessors C) x
  /\ invoke start x kw = Ok x
  /\ (forall acc name, invoke (mkLambda (Some start) (Some acc) name) x kw = acc x).
Proof.
  intros Hc. split; [now apply invoke_chain|]. split; reflexivity.
Qed.

Lemma invoke_composes_accessors_witness :
  let C := negate (is_none start) in
  is_chain C = true
  /\ (invoke C (VInt 7) [] = compose (accessors C) (VInt 7)
      /\ invoke start (VInt 7) [] = Ok (VInt 7)
      /\ (forall acc name,
             invoke (mkLambda (Some start) (Some acc) name) (VInt 7) [] = acc (VInt 7))).
Proof.
  split; [reflexivity|].
  apply (invoke_composes_accessors (negate (is_none start)) (VInt 7) []).
  reflexivity.
Defined.

(** Outside the chains the builder makes the equation can fail: a node
    whose parent has no accessor is evaluated as if that parent were the
    root, whatever lies above it. *)
Example invoke_ignores_ancestors_of_bare_parent :
  let root := mkLambda None (Some (fun _ => Ok VNone)) "None" in
  let bare := mkLambda (Some root) None "" in
  is_chain (negate bare) = false
  /\ invoke (negate bare) (VInt 1) [] = Ok (VBool false)
  /\ compose (accessors (negate bare)) (VInt 1) = Ok (VBool true).
Proof. repeat split. Qed.

(** What the chain of the witness evaluates to: [not (7 is None)]. *)
Example invoke_not_is_none :
  invoke (negate (is_none start)) (VInt 7) [] = Ok (VBool true).
Proof. reflexivity. Qed.

End ExpressionNodes.

(** ** The interval pattern *)
Section IntervalPattern.
Import lamb props.

Lemma all_chars_app p s t :
  all_chars p (s ++ t) = all_chars p s && all_chars p t.
Proof.
  induction s as [|c s IH]; cbn; [reflexivity|].
  now rewrite IH, andb_assoc.
Qed.

Lemma all_chars_weaken (p q : ascii -> bool) s :
  (forall c, p c = true -> q c = true) ->
  all_chars p s = true -> all_chars q s = true.
Proof.
  intros Hpq. induction s as [|c s IH]; cbn; [reflexivity|].
  intros [Hc Hs]%andb_true_iff. rewrite (Hpq _ Hc). now apply IH.
Qed.

Lemma all_chars_contains p s c :
  all_chars p s = true -> contains c s = true -> p c = true.
Proof.
  induction s as [|d s IH]; cbn; [discriminate|].
  intros [Hd Hs]%andb_true_iff [Heq|Hin]%orb_true_iff.
  - apply Ascii.eqb_eq in Heq. now subst.
  - now apply IH.
Qed.

Lemma number_char_not_space c : is_number_char c = true -> is_space c = false.
Proof. destruct c as [[] [] [] [] [] [] [] []]; vm_compute; congruence. Qed.

Lemma space_not_number_char c : is_space c = true -> is_number_char c = false.
Proof. destruct c as [[] [] [] [] [] [] [] []]; vm_compute; congruence. Qed.

(** White space before anything that does not start with a space is
    skipped whole. *)
Lemma skip_spaces_app w t :
  all_chars is_space w = true ->
  skip_spaces t = t ->
  skip_spaces (w ++ t) = t.
Proof.
  intros Hw Ht. induction w as [|c w IH]; cbn in *; [exact Ht|].
  apply andb_true_iff in Hw as [Hc Hw]. rewrite Hc. now apply IH.
Qed.

Lemma skip_spaces_all w : all_chars is_space w = true -> skip_spaces w = EmptyString.
Proof.
  induction w as [|c w IH]; cbn; [reflexivity|].
  intros [Hc Hw]%andb_true_iff. rewrite Hc. now apply IH.
Qed.

Lemma skip_spaces_number ls t :
  number_text ls = true -> skip_spaces (ls ++ t) = ls ++ t.
Proof.
  destruct ls as [|c ls]; [discriminate|]. cbn.
  intros [Hc _]%andb_true_iff. now rewrite (number_char_not_space _ Hc).
Qed.

(** A bound followed by anything that does not start in its class is read
    whole. *)
Lemma take_number_app ls t :
  all_chars is_number_char ls = true ->
  take_number t = (EmptyString, t) ->
  take_number (ls ++ t) = (ls, t).
Proof.
  intros Hls Ht. induction ls as [|c ls IH]; cbn in *; [exact Ht|].
  apply andb_true_iff in Hls as [Hc Hls]. rewrite Hc, (IH Hls). reflexivity.
Qed.

Lemma take_number_spaces w c t :
  is_number_char c = false ->
  all_chars is_space w = true ->
  take_number (w ++ String c t) = (EmptyString, w ++ String c t).
Proof.
  intros Hc Hw. destruct w as [|d w]; cbn in *.
  - now rewrite Hc.
  - apply andb_true_iff in Hw as [Hd _].
    now rewrite (space_not_number_char _ Hd).
Qed.

(** What was skipped is white space, and what was read is in the class. *)
Lemma skip_spaces_split s :
  exists w, s = w ++ skip_spaces s /\ all_chars is_space w = true.
Proof.
  induction s as [|c s (w & Hs & Hw)]; cbn.
  - now exists EmptyString.
  - destruct (is_space c) eqn:Hc.
    + exists (String c w). cbn. rewrite Hc, Hw. now rewrite <- Hs.
    + now exists EmptyString.
Qed.

Lemma take_number_split s :
  s = fst (take_number s) ++ snd (take_number s)
  /\ all_chars is_number_char (fst (take_number s)) = true.
Proof.
  induction s as [|c s [Hs Hn]]; cbn; [now split|].
  destruct (is_number_char c) eqn:Hc; [|now split].
  destruct (take_number s) as [n rest]; cbn in *.
  rewrite Hc, Hn. now rewrite <- Hs.
Qed.

(** The scan accepts every text of the interval form, and returns its four
    groups. *)
Lemma fullmatch_interval_text w0 a w1 ls w2 w3 rs w4 b w5 :
  all_chars is_space w0 = true -> all_chars is_space w1 = true ->
  all_chars is_space w2 = true -> all_chars is_space w3 = true ->
  all_chars is_space w4 = true -> all_chars is_space w5 = true ->
  number_text ls = true -> number_text rs = true ->
  fullmatch_between (interval_text w0 a w1 ls w2 w3 rs w4 b w5)
  = Some (left_bracket a, ls, rs, right_bracket b).
Proof.
  intros H0 H1 H2 H3 H4 H5 Hls Hrs.
  assert (Als : all_chars is_number_char ls = true) by (now destruct ls).
  assert (Ars : all_chars is_number_char rs = true) by (now destruct rs).
  unfold fullmatch_between, interval_text.
  rewrite (skip_spaces_app w0) by (assumption || now destruct a).
  replace (is_left_brace (left_bracket a)) with true by now destruct a.
  rewrite (skip_spaces_app w1) by (assumption || now apply skip_spaces_number).
  rewrite (take_number_app ls) by (assumption || now apply take_number_spaces).
  rewrite (skip_spaces_app w2) by (assumption || reflexivity).
  rewrite (skip_spaces_app w3) by (assumption || now apply skip_spaces_number).
  rewrite (take_number_app rs)
    by (assumption || (apply take_number_spaces; [now destruct b | assumption])).
  rewrite (skip_spaces_app w4) by (assumption || now destruct b).
  replace (is_right_brace (right_bracket b)) with true by now destruct b.
  destruct ls; [discriminate|]. destruct rs; [discriminate|].
  now rewrite (skip_spaces_all w5 H5).
Qed.

(** Conversely, whatever the scan accepts has the interval form. *)
Lemma fullmatch_between_sound s lb ls rs rb :
  fullmatch_between s = Some (lb, ls, rs, rb) ->
  exists w0 a w1 w2 w3 w4 b w5,
    s = interval_text w0 a w1 ls w2 w3 rs w4 b w5
    /\ lb = left_bracket a /\ rb = right_bracket b
    /\ all_chars is_space w0 = true /\ all_chars is_space w1 = true
    /\ all_chars is_space w2 = true /\ all_chars is_space w3 = true
    /\ all_chars is_space w4 = true /\ all_chars is_space w5 = true
    /\ number_text ls = true /\ number_text rs = true.
Proof.
  unfold fullmatch_between.
  destruct (skip_spaces_split s) as (w0 & Hs & H0).
  destruct (skip_spaces s) as [|lb' s1]; [discriminate|].
  destruct (is_left_brace lb') eqn:Hlb; [|discriminate].
  destruct (skip_spaces_split s1) as (w1 & Hs1 & H1).
  destruct (take_number_split (skip_spaces s1)) as [Hs1' Hls].
  destruct (take_number (skip_spaces s1)) as [ls' s2]. cbn [fst snd] in *.
  destruct ls' as [|c ls']; [discriminate|].
  destruct (skip_spaces_split s2) as (w2 & Hs2 & H2).
  destruct (skip_spaces s2) as [|comma s3]; [discriminate|].
  destruct (Ascii.eqb comma ",") eqn:Hcomma; [|discriminate].
  apply Ascii.eqb_eq in Hcomma. subst comma.
  destruct (skip_spaces_split s3) as (w3 & Hs3 & H3).
  destruct (take_number_split (skip_spaces s3)) as [Hs3' Hrs].
  destruct (take_number (skip_spaces s3)) as [rs' s4]. cbn [fst snd] in *.
  destruct rs' as [|d rs']; [discriminate|].
  destruct (skip_spaces_split s4) as (w4 & Hs4 & H4).
  destruct (skip_spaces s4) as [|rb' s5]; [discriminate|].
  destruct (is_right_brace rb') eqn:Hrb; [|discriminate].
  destruct (skip_spaces_split s5) as (w5 & Hs5 & H5).
  destruct (skip_spaces s5); [|discriminate].
  intros [= <- <- <- <-].
  assert (exists a, lb' = left_bracket a) as [a ->].
  { apply orb_true_iff in Hlb as [E|E]; apply Ascii.eqb_eq in E;
      [now exists true | now exists false]. }
  assert (exists b, rb' = right_bracket b) as [b ->].
  { apply orb_true_iff in Hrb as [E|E]; apply Ascii.eqb_eq in E;
      [now exists true | now exists false]. }
  assert (s5 = w5) as -> by (rewrite Hs5; clear; induction w5; cbn; congruence).
  exists w0, a, w1, w2, w3, w4, b, w5.
  repeat split; try assumption.
  unfold interval_text.
  etransitivity; [exact Hs|]. apply (f_equal (append w0)), (f_equal (String _)).
  etransitivity; [exact Hs1|]. apply (f_equal (append w1)).
  etransitivity; [exact Hs1'|]. apply (f_equal (append _)).
  etransitivity; [exact Hs2|]. apply (f_equal (append w2)), (f_equal (String _)).
  etransitivity; [exact Hs3|]. apply (f_equal (append w3)).
  etransitivity; [exact Hs3'|]. apply (f_equal (append _)).
  exact Hs4.
Qed.

(** The scan consumes nothing outside the five classes of the pattern. *)
Lemma fullmatch_between_chars s g :
  fullmatch_between s = Some g -> all_chars pattern_char s = true.
Proof.
  destruct g as [[[lb ls] rs] rb]. intros Hm.
  apply fullmatch_between_sound in Hm
    as (w0 & a & w1 & w2 & w3 & w4 & b & w5 & -> & _ & _
        & H0 & H1 & H2 & H3 & H4 & H5 & Hls & Hrs).
  assert (Hsp : forall w, all_chars is_space w = true ->
                          all_chars pattern_char w = true).
  { intros w. apply all_chars_weaken. intros c Hc. unfold pattern_char.
    now rewrite Hc. }
  assert (Hnum : forall n, number_text n = true ->
                           all_chars pattern_char n = true).
  { intros n Hn. apply all_chars_weaken with (p := is_number_char).
    - intros c Hc. unfold pattern_char. rewrite Hc. now rewrite !orb_true_r.
    - now destruct n. }
  unfold interval_text.
  repeat (rewrite ?all_chars_app; cbn [all_chars]).
  rewrite (Hsp w0 H0), (Hsp w1 H1), (Hsp w2 H2), (Hsp w3 H3), (Hsp w4 H4),
    (Hsp w5 H5), (Hnum ls Hls), (Hnum rs Hrs).
  now destruct a, b.
Qed.

(** So a text with a minus sign in it is never matched. *)
Lemma fullmatch_between_minus s :
  contains "-" s = true -> fullmatch_between s = None.
Proof.
  intros Hin. destruct (fullmatch_between s) as [g|] eqn:Hm; [|reflexivity].
  apply fullmatch_between_chars in Hm.
  now pose proof (all_chars_contains _ _ _ Hm Hin).
Qed.

End IntervalPattern.

(** ** [between] and its calling conventions *)
Section Between.
Import lamb props.
Context `{PyBuiltins}.

Lemma py_order_num strict a b p q :
  num_of a = Some p -> num_of b = Some q ->
  py_order strict a b = Ok (if strict then Qlt_bool p q else Qle_bool p q).
Proof.
  intros Ha Hb.
  destruct a; try discriminate Ha; cbn in Ha |- *; rewrite Hb;
    injection Ha as <-; reflexivity.
Qed.

Lemma chained_num sl sr lv xv rv lq xq rq :
  num_of lv = Some lq -> num_of xv = Some xq -> num_of rv = Some rq ->
  chained sl sr lv xv rv = Ok (VBool (in_interval (negb sl) (negb sr) lq xq rq)).
Proof.
  intros Hl Hx Hr. unfold chained, in_interval.
  rewrite (py_order_num sl lv xv lq xq Hl Hx). cbn [bind].
  rewrite (py_order_num sr xv rv xq rq Hx Hr).
  unfold Qlt_bool.
  destruct sl, sr, (Qle_bool lq xq), (Qle_bool xq lq), (Qle_bool xq rq),
    (Qle_bool rq xq); reflexivity.
Qed.

Lemma in_interval_compat a b l l' x r r' :
  (l == l')%Q -> (r == r')%Q -> in_interval a b l x r = in_interval a b l' x r'.
Proof.
  intros Hl Hr. unfold in_interval, Qlt_bool.
  rewrite (Qleb_comp l l' Hl x x (Qeq_refl x)), (Qleb_comp x x (Qeq_refl x) l l' Hl),
    (Qleb_comp x x (Qeq_refl x) r r' Hr), (Qleb_comp r r' Hr x x (Qeq_refl x)).
  reflexivity.
Qed.

(** A node added to a chain applies its accessor to what the chain
    returns. *)
Lemma invoke_child self acc name x kw :
  is_chain self = true ->
  invoke (mkLambda (Some self) (Some acc) name) x kw = bind (invoke self x kw) acc.
Proof.
  intros Hc. destruct self as [pp [pa|] pn]; [reflexivity|].
  destruct pp; [discriminate Hc|]. reflexivity.
Qed.

(** The node [between] builds, on a number. *)
Lemma between_bounds_invoke self lv rv a b x kw xv lq xq rq :
  is_chain self = true -> invoke self x kw = Ok xv ->
  num_of lv = Some lq -> num_of xv = Some xq -> num_of rv = Some rq ->
  exists n, between self lv (Some rv) a b = Ok n
            /\ invoke n x kw = Ok (VBool (in_interval a b lq xq rq)).
Proof.
  intros Hc Hx Hl Hxq Hr. unfold between, interpret_between. cbn [bind].
  destruct a, b; eexists; (split; [reflexivity|]);
    rewrite invoke_child by assumption; rewrite Hx; cbn [bind];
    now rewrite (chained_num _ _ lv xv rv lq xq rq).
Qed.

(** C3, as the code has it.  Take two numbers as bounds, an interval text
    that writes them as literals of digits, dots and underscores which
    [float] reads to the values of these bounds, and a number [x].  The
    text form (with any white space the pattern allows)
    and the form with two scalars and the two inclusivity flags build
    predicates that return the same boolean on [x], the interval test
    itself; the two-element list form is the scalar form with both ends
    inclusive, the two-element tuple form the one with both ends
    exclusive; a text that does not match the interval pattern raises a
    [ValueError] that quotes it; and a scalar alone raises a
    [ValueError]. *)
Theorem between_conventions_agree
    (self : Lambda) (x xv : val) (kw : kwargs) (xq : Q)
    (w0 w1 ls w2 w3 rs w4 w5 : string) (a b a0 b0 : bool)
    (lv rv : val) (lq rq lf rf : Q) :
  is_chain self = true -> invoke self x kw = Ok xv -> num_of xv = Some xq ->
  all_chars is_space w0 = true -> all_chars is_space w1 = true ->
  all_chars is_space w2 = true -> all_chars is_space w3 = true ->
  all_chars is_space w4 = true -> all_chars is_space w5 = true ->
  number_text ls = true -> number_text rs = true ->
  py_float ls = Ok lf -> py_float rs = Ok rf ->
  num_of lv = Some lq -> num_of rv = Some rq ->
  (lq == lf)%Q -> (rq == rf)%Q ->
  (exists n1 n2,
      between self (VStr (interval_text w0 a w1 ls w2 w3 rs w4 b w5)) None a0 b0
      = Ok n1
      /\ between self lv (Some rv) a b = Ok n2
      /\ invoke n1 x kw = Ok (VBool (in_interval a b lq xq rq))
      /\ invoke n2 x kw = Ok (VBool (in_interval a b lq xq rq)))
  /\ between self (VList [lv; rv]) None a0 b0 = between self lv (Some rv) true true
  /\ between self (VTuple [lv; rv]) None a0 b0 = between self lv (Some rv) false false
  /\ (forall s, fullmatch_between s = None ->
        between self (VStr s) None a0 b0
        = Raise (ValueError ("Unrecognized between spec '" ++ s ++ "'")))
  /\ between self lv None a0 b0
     = Raise (ValueError
                "right not specified but first argument isn't str, list, or tuple").
Proof.
  intros Hc Hx Hxq H0 H1 H2 H3 H4 H5 Hls Hrs Hlf Hrf Hl Hr Elq Erq.
  repeat split.
  - destruct (between_bounds_invoke self lv rv a b x kw xv lq xq rq)
      as (n2 & Hn2 & Hi2); try assumption.
    destruct (between_bounds_invoke self (VFloat lf) (VFloat rf) a b x kw xv lf xq rf)
      as (n1 & Hn1 & Hi1); try assumption; try reflexivity.
    exists n1, n2. repeat split; try assumption.
    + unfold between, interpret_between.
      rewrite fullmatch_interval_text by assumption.
      rewrite Hlf, Hrf. cbn [bind].
      replace (Ascii.eqb (left_bracket a) "[") with a by now destruct a.
      replace (Ascii.eqb (right_bracket b) "]") with b by now destruct b.
      exact Hn1.
    + rewrite Hi1. now rewrite (in_interval_compat a b lq lf xq rq rf).
  - intros s Hs. unfold between, interpret_between. now rewrite Hs.
  - unfold between, interpret_between.
    destruct lv; try discriminate Hl; reflexivity.
Qed.

(** C10. With a single text argument, an accepted call has matched both
    bounds against the class of digits, dots and underscores and returns
    each as the float read from its text; hence a text with a minus sign,
    such as ["[-2,10)"], is refused with a [ValueError] that quotes it. *)
Theorem interval_text_bounds_are_unsigned_floats (s : string) (a0 b0 : bool) :
  (forall l r a b,
      interpret_between (VStr s) None a0 b0 = Ok (l, r, a, b) ->
      exists lb ls rs rb lf rf,
        fullmatch_between s = Some (lb, ls, rs, rb)
        /\ number_text ls = true /\ number_text rs = true
        /\ py_float ls = Ok lf /\ py_float rs = Ok rf
        /\ l = VFloat lf /\ r = VFloat rf)
  /\ (contains "-" s = true ->
      interpret_between (VStr s) None a0 b0
      = Raise (ValueError ("Unrecognized between spec '" ++ s ++ "'")))
  /\ interpret_between (VStr "[-2,10)") None a0 b0
     = Raise (ValueError "Unrecognized between spec '[-2,10)'").
Proof.
  split; [|split; [|reflexivity]].
  - intros l r a b. unfold interpret_between.
    destruct (fullmatch_between s) as [[[[lb ls] rs] rb]|] eqn:Hm; [|discriminate].
    destruct (py_float ls) as [lf|] eqn:Hlf; [|discriminate].
    destruct (py_float rs) as [rf|] eqn:Hrf; [|discriminate].
    cbn [bind]. intros [= <- <- _ _].
    exists lb, ls, rs, rb, lf, rf.
    destruct (fullmatch_between_sound _ _ _ _ _ Hm)
      as (w0 & a' & w1 & w2 & w3 & w4 & b' & w5 & _ & _ & _
          & _ & _ & _ & _ & _ & _ & Hls & Hrs).
    repeat split; assumption.
  - intros Hin. unfold interpret_between.
    now rewrite (fullmatch_between_minus s Hin).
Qed.

End Between.

(** *** [between] on concrete intervals *)
Section BetweenExamples.
Import lamb props.
Existing Instance demo.builtins.

Lemma between_conventions_agree_witness :
  (is_chain start = true
   /\ invoke start (VInt 10) [] = Ok (VInt 10)
   /\ num_of (VInt 10) = Some (inject_Z 10)
   /\ all_chars is_space " " = true
   /\ number_text "2" = true /\ number_text "10" = true
   /\ py_float "2" = Ok (inject_Z 2) /\ py_float "10" = Ok (inject_Z 10)
   /\ num_of (VInt 2) = Some (inject_Z 2) /\ num_of (VInt 10) = Some (inject_Z 10))
  /\ exists n1 n2,
      between start (VStr "[2, 10)") None true false = Ok n1
      /\ between start (VInt 2) (Some (VInt 10)) true false = Ok n2
      /\ invoke n1 (VInt 10) [] = Ok (VBool false)
      /\ invoke n2 (VInt 10) [] = Ok (VBool false).
Proof.
  split; [repeat split|].
  pose proof (between_conventions_agree start (VInt 10) (VInt 10) [] (inject_Z 10)
      "" "" "2" "" " " "10" "" "" true false true false
      (VInt 2) (VInt 10) (inject_Z 2) (inject_Z 10) (inject_Z 2) (inject_Z 10)
      eq_refl eq_refl eq_refl eq_refl eq_refl eq_refl eq_refl eq_refl eq_refl
      eq_refl eq_refl eq_refl eq_refl eq_refl eq_refl
      (Qeq_refl _) (Qeq_refl _)) as [Hagree _].
  exact Hagree.
Defined.

(** C3 fails on negative bounds: the text form of the bounds -2 and 10 is
    refused, while the scalar form of the same interval answers. *)
Lemma between_negative_bound_disagrees :
  (exists n,
      between start (VInt (-2)) (Some (VInt 10)) true false = Ok n
      /\ invoke n (VInt 0) [] = Ok (VBool true))
  /\ between start (VStr ("[" ++ str_int (-2) ++ "," ++ str_int 10 ++ ")"))
             None true false
     = Raise (ValueError "Unrecognized between spec '[-2,10)'").
Proof.
  split; [eexists; split; reflexivity | reflexivity].
Qed.

(** The text form compares with the doubles that [float] reads.  An
    integer bound that no double holds is rounded in the text form and
    exact in the scalar form: for the bounds 9007199254740993 and
    9007199254740995 the two forms disagree on 9007199254740992. *)
Example between_rounded_bound_disagrees :
  py_float "9007199254740993" = Ok (inject_Z 9007199254740992)
  /\ (n <- between start (VInt 9007199254740993) (Some (VInt 9007199254740995))
                   true false ;;
      invoke n (VInt 9007199254740992) [])
     = Ok (VBool false)
  /\ (n <- between start (VStr "[9007199254740993,9007199254740995)") None
                   true false ;;
      invoke n (VInt 9007199254740992) [])
     = Ok (VBool true).
Proof. split; [reflexivity|]. split; reflexivity. Qed.

Lemma interval_text_bounds_are_unsigned_floats_witness :
  (interpret_between (VStr "(2, 10]") None true false
   = Ok (VFloat (inject_Z 2), VFloat (inject_Z 10), false, true)
   /\ exists lb ls rs rb lf rf,
       fullmatch_between "(2, 10]" = Some (lb, ls, rs, rb)
       /\ number_text ls = true /\ number_text rs = true
       /\ py_float ls = Ok lf /\ py_float rs = Ok rf
       /\ VFloat (inject_Z 2) = VFloat lf /\ VFloat (inject_Z 10) = VFloat rf)
  /\ (contains "-" "[-2,10)" = true
      /\ interpret_between (VStr "[-2,10)") None true false
         = Raise (ValueError "Unrecognized between spec '[-2,10)'")).
Proof.
  split.
  - split; [reflexivity|].
    exact (proj1 (interval_text_bounds_are_unsigned_floats "(2, 10]" true false)
                 _ _ _ _ eq_refl).
  - split; [reflexivity|].
    exact (proj1 (proj2 (interval_text_bounds_are_unsigned_floats "[-2,10)" true false))
                 eq_refl).
Defined.

(** The cases of [test_interpret_between] and [test_between] that use
    whole numbers. *)
Example interpret_between_tuple :
  interpret_between (VTuple [VInt 2; VInt 10]) None true false
  = Ok (VInt 2, VInt 10, false, false).
Proof. reflexivity. Qed.

Example interpret_between_list :
  interpret_between (VList [VInt 2; VInt 10]) None true false
  = Ok (VInt 2, VInt 10, true, true).
Proof. reflexivity. Qed.

Example interpret_between_text :
  interpret_between (VStr "[2, 10)") None true false
  = Ok (VFloat (inject_Z 2), VFloat (inject_Z 10), true, false).
Proof. reflexivity. Qed.

Example interpret_between_bad_pattern :
  interpret_between (VStr "[23535]") None true false
  = Raise (ValueError "Unrecognized between spec '[23535]'").
Proof. reflexivity. Qed.

Example between_right_end_exclusive :
  (n <- between start (VInt 2) (Some (VInt 10)) true false ;; invoke n (VInt 10) [])
  = Ok (VBool false).
Proof. reflexivity. Qed.

Example between_right_end_inclusive :
  (n <- between start (VInt 2) (Some (VInt 10)) false true ;; invoke n (VInt 10) [])
  = Ok (VBool true).
Proof. reflexivity. Qed.

End BetweenExamples.

(** ** Pipelines *)
Section Pipelines.
Import lamb pipeline props.
Context `{PyBuiltins}.

Lemma enumerate_loop_spec xs : forall i n,
  enumerate_loop i n xs
  = (xs, match xs with [] => n | _ => i + Z.of_nat (List.length xs) - 1 end).
Proof.
  induction xs as [|e rest IH]; intros i n; [reflexivity|].
  cbn [enumerate_loop]. rewrite IH. f_equal.
  destruct rest; cbn [List.length]; lia.
Qed.

(** After the loop of [apply], [n + 1] is the number of elements yielded. *)
Lemma enumerate_loop_count xs :
  enumerate_loop 0 (-1) xs = (xs, Z.of_nat (List.length xs) - 1).
Proof.
  rewrite enumerate_loop_spec. f_equal. destruct xs; cbn [List.length]; lia.
Qed.

Lemma failure_failed_at k label ee :
  failure (k - 1) label ee = reraise ee (failed_at k label).
Proof. unfold failure, failed_at. now replace (k - 1 + 1) with k by lia. Qed.

Lemma reraise_plain ee message :
  takes_message_and_exception (kind_of ee) ->
  reraise ee message = mkExn (kind_of ee) message (Some ee).
Proof. intros Hcls. unfold reraise. now rewrite Hcls. Qed.

Lemma plain_class_takes cls :
  In cls plain_classes -> takes_message_and_exception cls.
Proof. intros Hin message ee. now apply py_new_plain. Qed.

Lemma generator_raised_other e :
  is_stop_iteration e = false -> generator_raised e = e.
Proof. intros He. unfold generator_raised. now rewrite He. Qed.

Lemma generator_raised_goes_on e : is_stop_iteration (generator_raised e) = false.
Proof.
  unfold generator_raised. destruct (is_stop_iteration e) eqn:He; [reflexivity|exact He].
Qed.

(** [apply] yields what the steps produce, and replaces the exception that
    stops them, if any, by what its handler raises, which names the
    position. *)
Lemma apply_enumeration P s :
  apply P s
  = (fst (enumeration P s),
     match snd (enumeration P s) with
     | None => None
     | Some ee =>
         Some (generator_raised
                 (reraise ee
                    (failed_at (Z.of_nat (List.length (fst (enumeration P s))))
                               (label P))))
     end).
Proof.
  unfold apply, enumeration.
  destruct (transformed <- run_steps (steps P) s ;; iter_ transformed)
    as [[xs fault]|ee]; cbn [fst snd].
  - rewrite enumerate_loop_count. destruct fault; [|reflexivity].
    now rewrite failure_failed_at.
  - now rewrite <- failure_failed_at.
Qed.

(** The handler of [apply] on an exception of a class that is built from
    a message and an exception. *)
Lemma apply_failure P s xs ee :
  enumeration P s = (xs, Some ee) ->
  takes_message_and_exception (kind_of ee) ->
  is_stop_iteration ee = false ->
  apply P s
  = (xs, Some (mkExn (kind_of ee) (failed_at (Z.of_nat (List.length xs)) (label P))
                     (Some ee))).
Proof.
  intros He Hcls Hstop. rewrite apply_enumeration, He. cbn [fst snd].
  rewrite reraise_plain by exact Hcls.
  now rewrite generator_raised_other by exact Hstop.
Qed.

(** C2, as the code has it.  When enumerating the steps of [P] over [s]
    is ended by the exception [ee] at zero-based position [n] (after the
    [n] elements [xs]), and the class of [ee] is built from a message and
    an exception and is not [StopIteration], [apply] yields those elements
    unchanged and then raises an exception of the type of [ee], carrying
    [ee], whose message names item [n] (the zero-based position, which is
    the number of elements already yielded) and the label of [P]. *)
Theorem apply_names_failed_position (P : Pipeline) (s : val) (xs : list val)
    (ee : exn) :
  enumeration P s = (xs, Some ee) ->
  takes_message_and_exception (kind_of ee) ->
  is_stop_iteration ee = false ->
  exists raised,
    apply P s = (xs, Some raised)
    /\ kind_of raised = kind_of ee
    /\ msg_of raised = failed_at (Z.of_nat (List.length xs)) (label P)
    /\ inner_of raised = Some ee.
Proof.
  intros He Hcls Hstop. rewrite (apply_failure P s xs ee He Hcls Hstop).
  eexists. split; [reflexivity|]. now repeat split.
Qed.

(** Without an exception [apply] yields what the steps produce. *)
Lemma apply_without_failure P s xs :
  enumeration P s = (xs, None) -> apply P s = (xs, None).
Proof. intros He. now rewrite apply_enumeration, He. Qed.






(** The streams of the steps end by an exception that is not a
    [StopIteration], if by one: enumerating the generator of such a stream
    gives the stream back. *)
Lemma ended_ended fault : ended (ended fault) = ended fault.
Proof.
  destruct fault as [e|]; [|reflexivity]. cbn [ended].
  destruct (is_stop_iteration e) eqn:He; [reflexivity|]. cbn [ended]. now rewrite He.
Qed.

Lemma ended_generator_raised e :
  ended (Some (generator_raised e)) = Some (generator_raised e).
Proof. cbn [ended]. now rewrite generator_raised_goes_on. Qed.

Lemma iter_ended t xs fault : iter_ t = Ok (xs, fault) -> ended fault = fault.
Proof.
  destruct t; cbn [iter_]; intros Hit; inversion Hit; subst;
    try reflexivity. apply ended_ended.
Qed.

Lemma stream_of_ended v : ended (snd (stream_of v)) = snd (stream_of v).
Proof.
  unfold stream_of. destruct (iter_ v) as [[xs fault]|e] eqn:Hit; cbn [snd].
  - exact (iter_ended _ _ _ Hit).
  - destruct v; cbn [iter_] in Hit; try discriminate; now inversion Hit.
Qed.

Lemma gen_map_ended g xs fault :
  ended fault = fault -> ended (snd (gen_map g xs fault)) = snd (gen_map g xs fault).
Proof.
  intros Hf. induction xs as [|e rest IH]; cbn [gen_map snd]; [exact Hf|].
  destruct (g e) as [y|ex]; cbn [snd].
  - destruct (gen_map g rest fault). exact IH.
  - apply ended_generator_raised.
Qed.

Lemma gen_filter_ended wanted g xs fault :
  ended fault = fault ->
  ended (snd (gen_filter wanted g xs fault)) = snd (gen_filter wanted g xs fault).
Proof.
  intros Hf. induction xs as [|e rest IH]; cbn [gen_filter snd]; [exact Hf|].
  destruct (g e) as [y|ex]; cbn [snd].
  - destruct (gen_filter wanted g rest fault).
    now destruct (Bool.eqb (truthy y) wanted).
  - apply ended_generator_raised.
Qed.

Lemma gen_flatten_ended xs fault :
  ended fault = fault -> ended (snd (gen_flatten xs fault)) = snd (gen_flatten xs fault).
Proof.
  intros Hf. induction xs as [|ee rest IH]; cbn [gen_flatten snd]; [exact Hf|].
  destruct (iter_ ee) as [[ys [ex|]]|ex]; cbn [snd];
    try apply ended_generator_raised.
  destruct (gen_flatten rest fault). exact IH.
Qed.

Lemma zip_streams_ended xs fx ys fy :
  ended fx = fx -> ended fy = fy ->
  ended (snd (zip_streams xs fx ys fy)) = snd (zip_streams xs fx ys fy).
Proof.
  intros Hx Hy. revert ys.
  induction xs as [|x xs IH]; intros ys; cbn [zip_streams snd]; [exact Hx|].
  destruct ys as [|y ys]; cbn [snd]; [exact Hy|].
  specialize (IH ys). now destruct (zip_streams xs fx ys fy).
Qed.

Lemma chain_streams_ended e it :
  ended (snd (chain_streams e it)) = snd (chain_streams e it).
Proof.
  unfold chain_streams.
  pose proof (stream_of_ended e) as He. pose proof (stream_of_ended it) as Hit.
  destruct (stream_of e) as [xs [ex|]]; cbn [snd] in *; [exact He|].
  now destruct (stream_of it).
Qed.

Lemma drop_while_ended g xs fault :
  ended fault = fault -> ended (snd (drop_while g xs fault)) = snd (drop_while g xs fault).
Proof.
  intros Hf. induction xs as [|e rest IH]; cbn [drop_while snd]; [exact Hf|].
  destruct (g e) as [b|ex]; cbn [snd]; [|apply ended_ended].
  now destruct (truthy b).
Qed.

Lemma take_while_ended g xs fault :
  ended fault = fault -> ended (snd (take_while g xs fault)) = snd (take_while g xs fault).
Proof.
  intros Hf. induction xs as [|e rest IH]; cbn [take_while snd]; [exact Hf|].
  destruct (g e) as [b|ex]; cbn [snd]; [|apply ended_ended].
  destruct (truthy b); [|reflexivity]. now destruct (take_while g rest fault).
Qed.

Lemma iter_gen (st : stream) : ended (snd st) = snd st -> iter_ (gen st) = Ok st.
Proof. intros Hs. unfold gen. cbn [iter_]. rewrite Hs. now destruct st. Qed.

(** What [map], [filter] and [exclude] do with their keyword arguments:
    every call of the function receives them. *)
Lemma map_filter_exclude_forward_kwargs (g : FunctionOrLambda)
    (kw : kwargs) (xs : list val) :
  let callee := snd (as_name_function g) in
  enumeration (map (pipeline "") g kw) (VList xs)
  = gen_map (fun e => call_object callee [e] kw) xs None
  /\ enumeration (filter (pipeline "") g kw) (VList xs)
     = gen_filter true (fun e => call_object callee [e] kw) xs None
  /\ enumeration (exclude (pipeline "") g kw) (VList xs)
     = gen_filter false (fun e => call_object callee [e] kw) xs None.
Proof.
  unfold enumeration, map, filter, exclude.
  destruct (as_name_function g) as [name callee].
  cbn [snd _with steps pipeline app run_steps iter_ bind].
  rewrite !iter_gen; [repeat split| | |];
    first [apply gen_filter_ended | apply gen_map_ended]; reflexivity.
Qed.

(** What [dropwhile] and [takewhile] do with them: the step they add is
    the same whatever the keyword arguments are, and calls the condition
    with none. *)
Lemma dropwhile_takewhile_ignore_kwargs (P : Pipeline) (g : FunctionOrLambda)
    (kw : kwargs) (xs : list val) :
  let callee := snd (as_name_function g) in
  steps (dropwhile P g kw) = steps (dropwhile P g [])
  /\ steps (takewhile P g kw) = steps (takewhile P g [])
  /\ enumeration (dropwhile (pipeline "") g kw) (VList xs)
     = drop_while (fun e => call_object callee [e] []) xs None
  /\ enumeration (takewhile (pipeline "") g kw) (VList xs)
     = take_while (fun e => call_object callee [e] []) xs None.
Proof.
  unfold enumeration, dropwhile, takewhile.
  destruct (as_name_function g) as [name callee].
  cbn [snd _with steps pipeline app run_steps iter_ bind].
  rewrite !iter_gen; [repeat split| |];
    first [apply drop_while_ended | apply take_while_ended]; reflexivity.
Qed.

End Pipelines.

(** ** Pipeline objects *)
Section PipelineObjects.
Import lamb pipeline props.
Context `{PyBuiltins}.


Lemma update_last (h : objects.Heap) (g : Pipeline -> Pipeline) (o : Pipeline) :
  objects.update (List.length h) g (h ++ [o])%list = (h ++ [g o])%list.
Proof. induction h as [|o' h IH]; cbn; [reflexivity|now rewrite IH]. Qed.

Lemma deref_last (h : objects.Heap) (o : Pipeline) :
  objects.deref (h ++ [o])%list (List.length h) = o.
Proof. unfold objects.deref. now rewrite nth_middle. Qed.



(** [Pipeline(label, steps)] puts one object on the heap, with these two
    attributes. *)
Lemma new_allocates (l : string) (st : list Transform) (h : objects.Heap) :
  objects.new l st h = (List.length h, (h ++ [mkPipeline l st])%list).
Proof.
  unfold objects.new, objects.and_then, objects.allocate, objects.__init__,
    objects.and_then, objects.set_label, objects.set_steps, objects.ret.
  now rewrite !update_last.
Qed.

Lemma _with_allocates (self : objects.ref) (l : string) (step : Transform)
    (h : objects.Heap) :
  objects._with self l step h
  = (List.length h,
     (h ++ [mkPipeline (label (objects.deref h self) ++ " " ++ l)
                       (steps (objects.deref h self) ++ [step])%list])%list).
Proof.
  unfold objects._with, objects.and_then, objects.get_label, objects.get_steps.
  apply new_allocates.
Qed.



(** The object a builder method returns has the attributes that the
    method computes from the attributes of [self]: the methods of
    [pipeline], on the values of the attributes, say what the methods of
    [objects] build. *)
Lemma builders_on_objects_and_values (h : objects.Heap) (self : objects.ref)
    (g : FunctionOrLambda) (kw : kwargs) (it : val) :
  let P := objects.deref h self in
  let made (result : objects.ref * objects.Heap) : Pipeline :=
    objects.deref (snd result) (fst result) in
  made (objects.map self g kw h) = map P g kw
  /\ made (objects.filter self g kw h) = filter P g kw
  /\ made (objects.exclude self g kw h) = exclude P g kw
  /\ made (objects.flatten self h) = flatten P
  /\ made (objects.flatmap self g kw h) = flatmap P g kw
  /\ made (objects.zip_with self it h) = zip_with P it
  /\ made (objects.chain self it h) = chain P it
  /\ made (objects.dropwhile self g kw h) = dropwhile P g kw
  /\ made (objects.takewhile self g kw h) = takewhile P g kw.
Proof.
  intros P made. subst P made.
  unfold objects.map, objects.filter, objects.exclude, objects.flatten,
    objects.flatmap, objects.zip_with, objects.chain, objects.dropwhile,
    objects.takewhile, objects.and_then, objects.map, objects.flatten,
    map, filter, exclude, flatmap, flatten, zip_with, chain, dropwhile,
    takewhile, map.
  destruct (as_name_function g) as [name callee].
  rewrite !_with_allocates. cbn [fst snd].
  rewrite !deref_last.
  repeat split.
Qed.

End PipelineObjects.

(** *** Pipelines on concrete sequences *)
Section PipelineExamples.
Import lamb pipeline props.
Existing Instance demo.builtins.

(** Flattening [[[1, 2, 3], 15, [4]]]: three elements, then the
    [TypeError] of the element that cannot be iterated. *)
Lemma apply_names_failed_position_witness :
  let P := flatten (pipeline "src") in
  let s := VList [VList [VInt 1; VInt 2; VInt 3]; VInt 15; VList [VInt 4]] in
  let ee := TypeError "'int' object is not iterable" in
  enumeration P s = ([VInt 1; VInt 2; VInt 3], Some ee)
  /\ takes_message_and_exception (kind_of ee)
  /\ is_stop_iteration ee = false
  /\ exists raised,
      apply P s = ([VInt 1; VInt 2; VInt 3], Some raised)
      /\ kind_of raised = "TypeError"
      /\ msg_of raised = "Failed to iterate to item 3 in flo.Pipeline(src * flatten)"
      /\ inner_of raised = Some ee.
Proof.
  intros P s ee. split; [reflexivity|].
  split; [intros message e; reflexivity|]. split; [reflexivity|].
  exact (apply_names_failed_position P s [VInt 1; VInt 2; VInt 3] ee eq_refl
           (fun _ _ => eq_refl) eq_refl).
Defined.

(** C2 with a one-based position fails: for a mapper that raises on the
    first element, whose zero-based position is 0 and whose one-based
    position is 1, the message names item 0, not item 1. *)
Lemma apply_first_failure_names_item_0 :
  let P := map (pipeline "src") (IsCallable demo.boom) [] in
  let s := VList [VInt 5] in
  enumeration P s = ([], Some (ValueError "no"))
  /\ exists raised,
      apply P s = ([], Some raised)
      /\ msg_of raised = failed_at 0 (label P)
      /\ msg_of raised <> failed_at (0 + 1) (label P).
Proof.
  intros P s. split; [reflexivity|].
  eexists. split; [reflexivity|]. split; [reflexivity|].
  vm_compute. discriminate.
Qed.


(** The exceptions that the handler of [apply] does not pass on under
    their own type: a class whose constructor refuses the two arguments
    makes the handler raise the [TypeError] of the constructor, and a
    [StopIteration] raised by a mapper leaves the generator of the step
    as a [RuntimeError], while one raised by the condition of [takewhile]
    ends the enumeration. *)
Example apply_refused_constructor :
  apply (map (pipeline "src") (IsCallable demo.undecodable) []) (demo.range 3)
  = ([], Some (TypeError "function takes exactly 5 arguments (2 given)")).
Proof. reflexivity. Qed.

Example apply_stop_iteration_of_a_mapper :
  apply (map (pipeline "src") (IsCallable demo.first_of_nothing) []) (demo.range 3)
  = ([], Some (mkExn "RuntimeError"
                 "Failed to iterate to item 0 in flo.Pipeline(src * first_of_nothing)"
                 (Some (mkExn "RuntimeError" "generator raised StopIteration" None)))).
Proof. reflexivity. Qed.

Example apply_stop_iteration_of_a_condition :
  apply (takewhile (pipeline "src") (IsCallable demo.first_of_nothing) [])
        (demo.range 3)
  = ([], None).
Proof. reflexivity. Qed.



(** C9 on [def below(e, *, limit): return e < limit] with [limit=3] over
    [range(5)]: [map] hands [limit] to every call, while [dropwhile] and
    [takewhile] call [below(e)] without it, so the first call raises. *)
Theorem dropwhile_takewhile_drop_kwargs :
  let kw := [("limit", VInt 3)] in
  let missing :=
    TypeError "below() missing 1 required keyword-only argument: 'limit'" in
  apply (map (pipeline "src") (IsCallable demo.below) kw) (demo.range 5)
  = ([VBool true; VBool true; VBool true; VBool false; VBool false], None)
  /\ apply (dropwhile (pipeline "src") (IsCallable demo.below) kw) (demo.range 5)
     = ([], Some (mkExn "TypeError"
                 "Failed to iterate to item 0 in flo.Pipeline(src dropwhile(below(_, limit=3))"
                 (Some missing)))
  /\ apply (takewhile (pipeline "src") (IsCallable demo.below) kw) (demo.range 5)
     = ([], Some (mkExn "TypeError"
                 "Failed to iterate to item 0 in flo.Pipeline(src takewhile(below(_, limit=3))"
                 (Some missing))).
Proof. repeat split. Qed.

(** The scenarios of the test suite. *)
Example dropwhile_below_3 :
  apply (dropwhile (pipeline "range") (IsCallable (__lt__ e_ (VInt 3))) [])
        (demo.range 10)
  = (List.map VInt [3; 4; 5; 6; 7; 8; 9], None).
Proof. reflexivity. Qed.

Example takewhile_below_3 :
  apply (takewhile (pipeline "range") (IsCallable (__lt__ e_ (VInt 3))) [])
        (demo.range 10)
  = (List.map VInt [0; 1; 2], None).
Proof. reflexivity. Qed.

Example flatten_lists :
  apply (flatten (pipeline "list[2]"))
        (VList [VList [VInt 1; VInt 2; VInt 3]; VList [VInt 4]])
  = (List.map VInt [1; 2; 3; 4], None).
Proof. reflexivity. Qed.

Example zip_with_text :
  apply (zip_with (pipeline "s") (VStr "abc")) (demo.range 3)
  = ([VTuple [VInt 0; VStr "a"]; VTuple [VInt 1; VStr "b"];
      VTuple [VInt 2; VStr "c"]], None).
Proof. reflexivity. Qed.

Example chain_text :
  apply (chain (pipeline "s") (VStr "abc")) (demo.range 3)
  = ([VInt 0; VInt 1; VInt 2; VStr "a"; VStr "b"; VStr "c"], None).
Proof. reflexivity. Qed.

Example map_filter_label :
  label (filter (map (pipeline "list[2]") (IsCallable demo.list_) [])
                (IsCallable (__lt__ e_ (VInt 3))) [])
  = "list[2] * list / _<3".
Proof. reflexivity. Qed.

End PipelineExamples.

(** ** The caching wrapper *)
Section Caching.
Import it2.
Variable World : Type.
Variable _src : World -> stream * World.

Lemma fill_spec xs : forall cache, fill cache xs = (xs, (cache ++ xs)%list).
Proof.
  induction xs as [|e rest IH]; intros cache; cbn [fill].
  - now rewrite app_nil_r.
  - rewrite IH. now rewrite <- app_assoc.
Qed.

(** A complete first enumeration that yields at least one element is
    replayed by every later one, and the upstream is left alone. *)
Lemma cached_elements_are_replayed w xs w' :
  _src w = ((xs, None), w') -> xs <> [] ->
  exists c,
    iter World _src (init) w = ((xs, None), c, w')
    /\ forall w2, iter World _src c w2 = ((xs, None), c, w2).
Proof.
  intros Hsrc Hne. unfold iter, init. cbn [_cache]. rewrite Hsrc, fill_spec.
  eexists. split; [reflexivity|].
  intros w2. cbn [_cache app]. destruct xs; [contradiction|reflexivity].
Qed.

(** An enumeration that the upstream ends with an exception leaves the
    cache empty, and ends normally for the caller: the exception goes no
    further.  The next enumeration runs the upstream again. *)
Lemma interrupted_enumeration w xs e w' :
  _src w = ((xs, Some e), w') ->
  iter World _src init w = ((xs, None), init, w')
  /\ forall w2, iter World _src init w2
                = (let '((ys, fault), w3) := _src w2 in
                   let (zs, cache) := fill [] ys in
                   match fault with
                   | None => ((zs, None), mkCachingIt cache, w3)
                   | Some _ => ((zs, None), mkCachingIt [], w3)
                   end).
Proof.
  intros Hsrc. unfold iter, init. cbn [_cache]. rewrite Hsrc, fill_spec.
  split; reflexivity.
Qed.

End Caching.

(** *** The caching wrapper on concrete upstreams *)
Section CachingExamples.
Import it2.

(** C5 on an upstream whose first complete enumeration is empty: the
    second enumeration runs the upstream again and yields another
    sequence. *)
Theorem empty_enumeration_is_not_cached :
  let first := iter nat demo.late_source init 0%nat in
  let second := iter nat demo.late_source (snd (fst first)) (snd first) in
  fst (fst first) = ([], None)
  /\ snd first = 1%nat
  /\ fst (fst second) = ([VInt 1], None)
  /\ snd second = 2%nat.
Proof. repeat split. Qed.

(** C8 on an upstream that raises after two elements: the caller of the
    caching wrapper gets the two elements and a normal end. *)
Theorem caching_wrapper_swallows_exception :
  fst (demo.failing_source 0%nat) = ([VInt 1; VInt 2], Some (ValueError "no"))
  /\ fst (fst (iter nat demo.failing_source init 0%nat)) = ([VInt 1; VInt 2], None).
Proof. split; reflexivity. Qed.

End CachingExamples.

(** ** Attempts *)
Section Attempts.
Import lamb.
Context `{PyBuiltins}.

(** C7. [try_] calls [f] on the arguments it was given and returns a
    wrapper in which exactly one of the result and the exception is set:
    the value [f] returned, or the exception it raised.  [result()] then
    returns that value, or raises that exception.  [f] is a function, whose
    body is run on the arguments; or a node, which is invoked on the
    argument; or any other object, which stands for the function that
    always returns it. *)
Theorem try_holds_exactly_one (name source : string)
    (body : list val -> kwargs -> result val) (args : list val) (kw : kwargs)
    (l : Lambda) (x value : val) (r r' : result val) :
  body args kw = r ->
  invoke l x [] = r' ->
  props.holds (attempt.try_ (IsCallable (PyFunction name source body)) args kw) r
  /\ props.holds (attempt.try_ (IsLambda l) [x] []) r'
  /\ props.holds (attempt.try_ (IsValue value) [x] []) (Ok value).
Proof.
  intros Hr Hr'. unfold attempt.try_, props.holds.
  cbn [as_fcn lamb.f call bound_twice constant invoke].
  rewrite Hr, Hr'.
  destruct r as [v|e], r' as [v'|e']; cbn; auto 10.
Qed.

(** A failed attempt passes through [and_then] unchanged. *)
Lemma and_then_failed a fcn kw :
  attempt.succeeded a = false -> attempt.and_then a fcn kw = a.
Proof. unfold attempt.and_then. now intros ->. Qed.

End Attempts.

(** *** Attempts on concrete calls *)
Section AttemptExamples.
Import lamb attempt.
Existing Instance demo.builtins.

(** [as_fcn(3)(14) == 3], from the test suite. *)
Example as_fcn_constant :
  call (as_fcn (IsValue (VInt 3))) [VInt 14] [] = Ok (VInt 3).
Proof. reflexivity. Qed.

Example as_fcn_root :
  call (as_fcn (IsLambda e_)) [VInt 3] [] = Ok (VInt 3).
Proof. reflexivity. Qed.

(** [len] returns on a list and [boom] raises. *)
Lemma try_holds_exactly_one_witness :
  let returned := try_ (IsCallable demo.len_) [VList [VInt 7]] [] in
  let raised := try_ (IsCallable demo.boom) [VInt 7] [] in
  call demo.len_ [VList [VInt 7]] [] = Ok (VInt 1)
  /\ call demo.boom [VInt 7] [] = Raise (ValueError "no")
  /\ invoke e_ (VInt 7) [] = Ok (VInt 7)
  /\ props.holds returned (Ok (VInt 1))
  /\ props.holds raised (Raise (ValueError "no"))
  /\ props.holds (try_ (IsLambda e_) [VInt 7] []) (Ok (VInt 7))
  /\ succeeded returned = true /\ failed returned = false
  /\ succeeded raised = false /\ failed raised = true.
Proof.
  intros returned raised.
  split; [reflexivity|]. split; [reflexivity|]. split; [reflexivity|].
  split.
  { exact (proj1 (try_holds_exactly_one "len" "" (call demo.len_)
                    [VList [VInt 7]] [] e_ (VInt 7) VNone
                    (Ok (VInt 1)) (Ok (VInt 7)) eq_refl eq_refl)). }
  split.
  { exact (proj1 (try_holds_exactly_one "boom" "" (call demo.boom)
                    [VInt 7] [] e_ (VInt 7) VNone
                    (Raise (ValueError "no")) (Ok (VInt 7)) eq_refl eq_refl)). }
  split.
  { exact (proj1 (proj2 (try_holds_exactly_one "boom" "" (call demo.boom)
                    [VInt 7] [] e_ (VInt 7) VNone
                    (Raise (ValueError "no")) (Ok (VInt 7)) eq_refl eq_refl))). }
  now repeat split.
Defined.

Example try_failure :
  let a := try_ (IsCallable demo.boom) [VInt 1] [] in
  failed a = true /\ succeeded a = false
  /\ attempt.result a = Raise (ValueError "no")
  /\ or_else a (VInt 3) = VInt 3.
Proof. repeat split. Qed.

Example try_success :
  let a := try_ (IsCallable demo.len_) [VList [VInt 1]] [] in
  failed a = false /\ succeeded a = true
  /\ attempt.result a = Ok (VInt 1)
  /\ or_else a (VInt 3) = VInt 1.
Proof. repeat split. Qed.

End AttemptExamples.

(** * Further properties *)

(** ** Expression nodes, continued *)
Section MoreExpressionNodes.
Import lamb props props_rest.
Context `{PyBuiltins}.

(** The keyword arguments that [invoke] hands to the parent reach no
    accessor. *)
Lemma invoke_passes_kwargs_on (C : Lambda) (x : val) (kw kw' : kwargs) :
  invoke C x kw = invoke C x kw'.
Proof.
  induction C as [a n | p a n IH] using Lambda_parent_ind; [reflexivity|].
  destruct p as [pp [pa|] pn]; [|reflexivity].
  cbn [invoke] in *. now rewrite IH.
Qed.

(** X1. Calling [C.invoke(x, **kw)]: a keyword named [self] or
    [instance] is refused with a [TypeError], because the call has given
    these parameters their values already; any other keywords reach no
    accessor, and the call returns or raises what [C.invoke(x)] does. *)
Theorem invoke_ignores_kwargs (C : Lambda) (x : val) (kw : kwargs) :
  match bound_twice ["self"; "instance"] kw with
  | Some name =>
      call (f C) [x] kw = Raise (multiple_values "Lambda.invoke" name)
  | None => call (f C) [x] kw = call (f C) [x] []
  end.
Proof.
  unfold f. cbn [call bound_twice].
  destruct (bound_twice ["self"; "instance"] kw) as [name|]; [reflexivity|].
  apply invoke_passes_kwargs_on.
Qed.

Lemma concat_fragments_snoc (l : list string) (n : string) :
  String.concat "" (l ++ [n]) = String.concat "" l ++ n.
Proof.
  assert (Hassoc : forall s t u : string, (s ++ t) ++ u = s ++ t ++ u).
  { intros s t u. induction s as [|c s IH]; cbn; [reflexivity|now rewrite IH]. }
  induction l as [|x l IH]; [reflexivity|].
  destruct l as [|y l]; [reflexivity|].
  change (String.concat "" ((x :: y :: l) ++ [n]))
    with (x ++ "" ++ String.concat "" ((y :: l) ++ [n])).
  rewrite IH.
  change (String.concat "" (x :: y :: l)) with (x ++ "" ++ String.concat "" (y :: l)).
  cbn [append]. now rewrite Hassoc.
Qed.

(** The display of a node is the display of its root followed by the
    fragments of the nodes below it, parent before child; in particular the
    display of a child starts with the display of its parent. *)
Lemma repr_joins_fragments (l : Lambda) :
  repr l = String.concat "" (fragments l)
  /\ (forall a n, repr (mkLambda (Some l) a n) = repr l ++ n).
Proof.
  split; [|reflexivity].
  induction l as [a n | p a n IH] using Lambda_parent_ind; [reflexivity|].
  cbn [repr fragments]. now rewrite concat_fragments_snoc, IH.
Qed.

(** X2. On a chain, [not_none] is the negation of [is_none]: the two
    nodes [l.not_none()] and [~l.is_none()] return the same on every
    input, and neither adds an exception to those of [l]. *)
Theorem not_none_negates_is_none (l : Lambda) (x : val) (kw : kwargs) :
  is_chain l = true ->
  invoke (not_none l) x kw = invoke (negate (is_none l)) x kw
  /\ (forall v, invoke l x kw = Ok v ->
        invoke (is_none l) x kw
        = Ok (VBool match v with VNone => true | _ => false end)
        /\ invoke (not_none l) x kw
           = Ok (VBool match v with VNone => false | _ => true end)).
Proof.
  intros Hc. unfold not_none, negate, is_none.
  rewrite !invoke_child by assumption.
  split.
  - destruct (invoke l x kw) as [v|e]; [|reflexivity]. now destruct v.
  - intros v ->. split; reflexivity.
Qed.

(** X3. On a chain, [falsey] returns what [negate] returns, [truthy]
    returns the boolean of the value, and applying [truthy] twice changes
    nothing. *)
Theorem truthy_falsey_coerce (l : Lambda) (x : val) (kw : kwargs) :
  is_chain l = true ->
  invoke (lamb_rest.falsey l) x kw = invoke (negate l) x kw
  /\ invoke (lamb_rest.truthy (lamb_rest.truthy l)) x kw
     = invoke (lamb_rest.truthy l) x kw
  /\ (forall v, invoke l x kw = Ok v ->
        invoke (lamb_rest.truthy l) x kw = Ok (VBool (truthy v))
        /\ invoke (lamb_rest.falsey l) x kw = Ok (VBool (negb (truthy v)))).
Proof.
  intros Hc. unfold lamb_rest.falsey, lamb_rest.truthy, negate, lamb.apply.
  rewrite !invoke_child by assumption.
  destruct (invoke l x kw) as [v|e]; cbn.
  - split; [reflexivity|]. split; [reflexivity|].
    intros v' [= <-]. split; reflexivity.
  - split; [reflexivity|]. split; [reflexivity|]. discriminate.
Qed.

End MoreExpressionNodes.

(** ** [between], continued *)
Section MoreBetween.
Import lamb props.
Context `{PyBuiltins}.

Lemma Qlt_bool_le x y : Qlt_bool x y = true -> Qle_bool x y = true.
Proof.
  unfold Qlt_bool. intros Hlt. apply negb_true_iff in Hlt.
  apply Qle_bool_iff, Qlt_le_weak, Qnot_le_lt.
  intros Hle. apply Qle_bool_iff in Hle. congruence.
Qed.

Lemma in_interval_widens a b l x r :
  in_interval false false l x r = true -> in_interval a b l x r = true.
Proof.
  unfold in_interval. intros [Hl Hr]%andb_true_iff.
  apply andb_true_iff. split.
  - destruct a; [now apply Qlt_bool_le|assumption].
  - destruct b; [now apply Qlt_bool_le|assumption].
Qed.

Lemma in_interval_reversed a b l x r :
  (r < l)%Q -> in_interval a b l x r = false.
Proof.
  intros Hrl. destruct (in_interval a b l x r) eqn:Hin; [|reflexivity].
  exfalso. unfold in_interval in Hin. apply andb_true_iff in Hin as [Hl Hr].
  assert (Hlx : (l <= x)%Q).
  { apply Qle_bool_iff. destruct a; [assumption|now apply Qlt_bool_le]. }
  assert (Hxr : (x <= r)%Q).
  { apply Qle_bool_iff. destruct b; [assumption|now apply Qlt_bool_le]. }
  apply (Qlt_not_le _ _ Hrl). now apply Qle_trans with x.
Qed.

(** X4. On numbers the four intervals are nested: whatever the open
    interval (the tuple form) accepts, the interval with the same bounds
    and any choice of inclusive ends accepts too. *)
Theorem between_open_is_narrowest (self : Lambda) (x xv lv rv : val)
    (kw : kwargs) (lq xq rq : Q) (a b a0 b0 : bool) :
  is_chain self = true -> invoke self x kw = Ok xv ->
  num_of lv = Some lq -> num_of xv = Some xq -> num_of rv = Some rq ->
  exists n_open n,
    between self (VTuple [lv; rv]) None a0 b0 = Ok n_open
    /\ between self lv (Some rv) a b = Ok n
    /\ (invoke n_open x kw = Ok (VBool true) -> invoke n x kw = Ok (VBool true)).
Proof.
  intros Hc Hx Hl Hxq Hr.
  destruct (between_bounds_invoke self lv rv false false x kw xv lq xq rq)
    as (n_open & Hopen & Hiopen); try assumption.
  destruct (between_bounds_invoke self lv rv a b x kw xv lq xq rq)
    as (n & Hn & Hin); try assumption.
  exists n_open, n. split; [exact Hopen|]. split; [exact Hn|].
  rewrite Hiopen, Hin. intros [= Ho]. now rewrite (in_interval_widens a b _ _ _ Ho).
Qed.

(** X5. With the bounds in the wrong order, left above right, [between]
    builds a predicate that rejects every number, whichever ends are
    inclusive; it raises nothing. *)
Theorem between_reversed_bounds_is_empty (self : Lambda) (x xv lv rv : val)
    (kw : kwargs) (lq xq rq : Q) (a b : bool) :
  is_chain self = true -> invoke self x kw = Ok xv ->
  num_of lv = Some lq -> num_of xv = Some xq -> num_of rv = Some rq ->
  (rq < lq)%Q ->
  exists n,
    between self lv (Some rv) a b = Ok n
    /\ invoke n x kw = Ok (VBool false).
Proof.
  intros Hc Hx Hl Hxq Hr Hrl.
  destruct (between_bounds_invoke self lv rv a b x kw xv lq xq rq)
    as (n & Hn & Hin); try assumption.
  exists n. split; [exact Hn|]. now rewrite Hin, in_interval_reversed.
Qed.

(** X6. A tuple or a list given alone must have exactly two elements: any
    other length makes [interpret_between], and so [between], raise a
    [ValueError]. *)
Theorem between_pair_needs_two_elements (self : Lambda) (xs : list val)
    (a0 b0 : bool) :
  List.length xs <> 2%nat ->
  (exists m, interpret_between (VTuple xs) None a0 b0 = Raise (ValueError m))
  /\ (exists m, interpret_between (VList xs) None a0 b0 = Raise (ValueError m))
  /\ (exists m, between self (VTuple xs) None a0 b0 = Raise (ValueError m))
  /\ (exists m, between self (VList xs) None a0 b0 = Raise (ValueError m)).
Proof.
  intros Hlen. unfold between, interpret_between.
  destruct xs as [|x1 [|x2 [|x3 xs]]]; cbn; try (now elim Hlen);
    repeat split; eexists; reflexivity.
Qed.

(** X7. The interval pattern accepts exactly the texts of the interval
    form: optional white space, a bracket, a bound, a comma, a bound, a
    bracket, with white space allowed around every item; and the groups it
    returns are the two brackets and the two bounds. *)
Theorem fullmatch_between_characterised (s : string) (lb rb : ascii)
    (ls rs : string) :
  fullmatch_between s = Some (lb, ls, rs, rb)
  <-> exists w0 a w1 w2 w3 w4 b w5,
        s = interval_text w0 a w1 ls w2 w3 rs w4 b w5
        /\ lb = left_bracket a /\ rb = right_bracket b
        /\ all_chars is_space w0 = true /\ all_chars is_space w1 = true
        /\ all_chars is_space w2 = true /\ all_chars is_space w3 = true
        /\ all_chars is_space w4 = true /\ all_chars is_space w5 = true
        /\ number_text ls = true /\ number_text rs = true.
Proof.
  split; [apply fullmatch_between_sound|].
  intros (w0 & a & w1 & w2 & w3 & w4 & b & w5 & -> & -> & -> & H0 & H1 & H2
          & H3 & H4 & H5 & Hls & Hrs).
  now apply fullmatch_interval_text.
Qed.

(** X8. In the text form the brackets alone decide which ends are
    inclusive, and the bounds are what [float] makes of the two texts: the
    flags the caller passes are ignored, and when [float] refuses a bound
    that the pattern let through (two dots, say) its exception comes out
    in place of the error that quotes the whole text. *)
Theorem interval_text_reads_brackets_and_floats
    (w0 w1 ls w2 w3 rs w4 w5 : string) (a b a0 b0 : bool) :
  all_chars is_space w0 = true -> all_chars is_space w1 = true ->
  all_chars is_space w2 = true -> all_chars is_space w3 = true ->
  all_chars is_space w4 = true -> all_chars is_space w5 = true ->
  number_text ls = true -> number_text rs = true ->
  interpret_between (VStr (interval_text w0 a w1 ls w2 w3 rs w4 b w5)) None a0 b0
  = (l <- py_float ls ;; r <- py_float rs ;; Ok (VFloat l, VFloat r, a, b)).
Proof.
  intros H0 H1 H2 H3 H4 H5 Hls Hrs. unfold interpret_between.
  rewrite fullmatch_interval_text by assumption.
  now destruct a, b.
Qed.

End MoreBetween.

(** ** Pipelines, continued *)
Section MorePipelines.
Import lamb pipeline props props_rest.
Context `{PyBuiltins}.

Lemma run_steps_app (before after : list Transform) (s : val) :
  run_steps (before ++ after) s = (t <- run_steps before s ;; run_steps after t).
Proof.
  revert s. induction before as [|st before IH]; intros s; [reflexivity|].
  cbn [run_steps app]. destruct (st s) as [t|e]; [apply IH|reflexivity].
Qed.

(** The enumeration of a pipeline extended by a step that turns one
    stream into another. *)
Lemma enumeration_stream_step (P : Pipeline) (l : string)
    (G : list val -> option exn -> stream) (s : val) :
  (forall e, G [] (Some e) = ([], Some e)) ->
  (forall xs fault,
      ended fault = fault -> ended (snd (G xs fault)) = snd (G xs fault)) ->
  enumeration (_with P l (fun it => '(xs, fault) <- iter_ it ;; Ok (gen (G xs fault)))) s
  = G (fst (enumeration P s)) (snd (enumeration P s)).
Proof.
  intros Hfault Hended. unfold enumeration, _with. cbn [steps].
  rewrite run_steps_app.
  destruct (run_steps (steps P) s) as [t|e]; cbn [bind run_steps].
  - destruct (iter_ t) as [[xs fault]|e] eqn:Hit; cbn [bind fst snd].
    + rewrite iter_gen; [reflexivity|].
      apply Hended. exact (iter_ended _ _ _ Hit).
    + now rewrite Hfault.
  - cbn [fst snd]. now rewrite Hfault.
Qed.

Lemma enumeration_builders (P : Pipeline)
    (g : FunctionOrLambda) (kw : kwargs) (s : val) :
  let callee := snd (as_name_function g) in
  let xs := fst (enumeration P s) in
  let fault := snd (enumeration P s) in
  enumeration (map P g kw) s
  = gen_map (fun e => call_object callee [e] kw) xs fault
  /\ enumeration (filter P g kw) s
     = gen_filter true (fun e => call_object callee [e] kw) xs fault
  /\ enumeration (exclude P g kw) s
     = gen_filter false (fun e => call_object callee [e] kw) xs fault
  /\ enumeration (flatten P) s = gen_flatten xs fault
  /\ enumeration (dropwhile P g kw) s
     = drop_while (fun e => call_object callee [e] []) xs fault
  /\ enumeration (takewhile P g kw) s
     = take_while (fun e => call_object callee [e] []) xs fault.
Proof.
  unfold map, filter, exclude, flatten, dropwhile, takewhile.
  destruct (as_name_function g) as [name callee]. cbn [snd].
  repeat split; apply enumeration_stream_step; try reflexivity;
    intros ys fault;
    first [ apply gen_map_ended | apply gen_filter_ended | apply gen_flatten_ended
          | apply drop_while_ended | apply take_while_ended ].
Qed.

Lemma chain_appends_lemma (P : Pipeline) (it s : val) :
  enumeration (chain P it) s
  = match enumeration P s with
    | (xs, Some ex) => (xs, Some ex)
    | (xs, None) => ((xs ++ fst (stream_of it))%list, snd (stream_of it))
    end.
Proof.
  unfold enumeration, chain, _with. cbn [steps]. rewrite run_steps_app.
  destruct (run_steps (steps P) s) as [t|e]; cbn [bind run_steps]; [|reflexivity].
  rewrite iter_gen by apply chain_streams_ended.
  unfold chain_streams, stream_of.
  destruct (iter_ t) as [[xs [ex|]]|e]; cbn [fst snd]; try reflexivity.
  now destruct (match iter_ it with Ok s0 => s0 | Raise e => ([], Some e) end).
Qed.
















Lemma gen_flatten_lists (xss : list (list val)) fault :
  gen_flatten (List.map VList xss) fault = (List.concat xss, fault).
Proof.
  induction xss as [|xs xss IH]; [reflexivity|].
  cbn [List.map gen_flatten iter_ List.concat]. now rewrite IH.
Qed.

(** X17. [flatten] over a sequence of lists yields their concatenation. *)
Theorem flatten_concatenates (P : Pipeline) (s : val) (xss : list (list val)) :
  enumeration P s = (List.map VList xss, None) ->
  apply (flatten P) s = (List.concat xss, None).
Proof.
  intros HE. apply apply_without_failure.
  destruct (enumeration_builders P (IsValue VNone) [] s) as (_ & _ & _ & Hf & _).
  rewrite Hf, HE. apply gen_flatten_lists.
Qed.

Lemma zip_streams_combine xs ys :
  zip_streams xs None ys None
  = (List.map (fun p => VTuple [fst p; snd p]) (combine xs ys), None).
Proof.
  revert ys. induction xs as [|x xs IH]; intros [|y ys]; try reflexivity.
  cbn [zip_streams combine List.map fst snd]. now rewrite IH.
Qed.

Lemma enumeration_ok (P : Pipeline) (s : val) xs :
  enumeration P s = (xs, None) ->
  exists t, run_steps (steps P) s = Ok t /\ iter_ t = Ok (xs, None).
Proof.
  unfold enumeration.
  destruct (run_steps (steps P) s) as [t|e]; cbn [bind]; [|discriminate].
  destruct (iter_ t) as [st|e] eqn:Hit; [|discriminate].
  intros ->. now exists t.
Qed.

(** X18. [zip_with] pairs the elements of the pipeline with those of the
    other iterable, position by position, and stops with the shorter of
    the two. *)
Theorem zip_with_pairs_up_to_the_shorter (P : Pipeline) (it s : val)
    (xs ys : list val) :
  enumeration P s = (xs, None) ->
  iter_ it = Ok (ys, None) ->
  apply (zip_with P it) s
  = (List.map (fun p => VTuple [fst p; snd p]) (combine xs ys), None)
  /\ List.length (fst (apply (zip_with P it) s))
     = Nat.min (List.length xs) (List.length ys).
Proof.
  intros HE Hit.
  assert (Happ : apply (zip_with P it) s
                 = (List.map (fun p => VTuple [fst p; snd p]) (combine xs ys), None)).
  { apply apply_without_failure.
    destruct (enumeration_ok P s xs HE) as (t & Hrun & Ht).
    unfold enumeration, zip_with, _with. cbn [steps].
    rewrite run_steps_app, Hrun. cbn [bind run_steps]. rewrite Ht, Hit.
    cbn [bind]. rewrite zip_streams_combine. now rewrite iter_gen. }
  split; [exact Happ|]. rewrite Happ. cbn [fst].
  now rewrite length_map, length_combine.
Qed.

(** What [iter] raises is a [TypeError], which the handlers of the
    package raise again under its own type. *)
Lemma iter_raises_TypeError v ex :
  iter_ v = Raise ex ->
  takes_message_and_exception (kind_of ex) /\ is_stop_iteration ex = false.
Proof.
  intros Hit.
  assert (Hk : kind_of ex = "TypeError").
  { destruct v; cbn [iter_] in Hit; try discriminate; now inversion Hit. }
  split.
  - rewrite Hk. apply plain_class_takes. cbn. tauto.
  - unfold is_stop_iteration. now rewrite Hk.
Qed.

(** X19. An argument that is not iterable is found at different moments:
    [zip_with] fails before the first element, so [apply] yields nothing
    and names item 0; [chain] yields every element of the pipeline first
    and fails where the other iterable would start. *)
Theorem zip_with_fails_early_chain_fails_late (P : Pipeline) (it s : val)
    (xs : list val) (ex : exn) :
  enumeration P s = (xs, None) ->
  iter_ it = Raise ex ->
  apply (zip_with P it) s
  = ([], Some (mkExn (kind_of ex) (failed_at 0 (label (zip_with P it))) (Some ex)))
  /\ apply (chain P it) s
     = (xs, Some (mkExn (kind_of ex)
                        (failed_at (Z.of_nat (List.length xs)) (label (chain P it)))
                        (Some ex))).
Proof.
  intros HE Hit.
  destruct (iter_raises_TypeError it ex Hit) as [Hcls Hstop].
  split.
  - destruct (enumeration_ok P s xs HE) as (t & Hrun & Ht).
    assert (Hz : enumeration (zip_with P it) s = ([], Some ex)).
    { unfold enumeration, zip_with, _with. cbn [steps].
      rewrite run_steps_app, Hrun. cbn [bind run_steps]. now rewrite Ht, Hit. }
    exact (apply_failure _ _ _ _ Hz Hcls Hstop).
  - apply apply_failure; [|exact Hcls|exact Hstop].
    rewrite chain_appends_lemma, HE.
    unfold stream_of. rewrite Hit. cbn [fst snd]. now rewrite app_nil_r.
Qed.

(** A pipeline without steps yields its source as it is, and hands the
    exception that ends the source to its handler; a source that is not
    iterable makes it raise at item 0, with the type of the exception
    [iter] raised. *)
Lemma empty_pipeline_is_identity (l : string) (s : val) :
  match iter_ s with
  | Ok (xs, None) => apply (pipeline l) s = (xs, None)
  | Ok (xs, Some ex) =>
      apply (pipeline l) s
      = (xs, Some (generator_raised
                     (reraise ex (failed_at (Z.of_nat (List.length xs)) l))))
  | Raise ex =>
      apply (pipeline l) s
      = ([], Some (mkExn (kind_of ex) (failed_at 0 l) (Some ex)))
  end.
Proof.
  destruct (iter_ s) as [[xs [ex|]]|ex] eqn:Hit.
  - rewrite apply_enumeration. unfold enumeration, pipeline.
    cbn [steps run_steps bind]. now rewrite Hit.
  - rewrite apply_enumeration. unfold enumeration, pipeline.
    cbn [steps run_steps bind]. now rewrite Hit.
  - destruct (iter_raises_TypeError s ex Hit) as [Hcls Hstop].
    apply (apply_failure (pipeline l) s [] ex); [|exact Hcls|exact Hstop].
    unfold enumeration, pipeline. cbn [steps run_steps bind]. now rewrite Hit.
Qed.

End MorePipelines.

From Stdlib Require Import Permutation.

(** ** [index] and [unique_index] *)
Section Indexing.
Import lamb indexing props props_rest.
Context `{PyBuiltins}.


















End Indexing.

(** ** Checks *)
Section Checks.
Import lamb check props props_rest.
Context `{PyBuiltins}.












End Checks.

(** ** The caching wrapper, continued *)
Section MoreCaching.
Import it2 props_rest.
Variable World : Type.
Variable _src : World -> stream * World.

(** X27. Whatever enumerations came before, each run to its end, the
    buffer of a caching wrapper is empty or holds the elements of one
    complete run of the upstream that ended without an exception: it never
    holds a part of a run. *)
Theorem cache_is_empty_or_a_complete_run (c : CachingIt) :
  reachable World _src c ->
  _cache c = [] \/ exists w w', _src w = ((_cache c, None), w').
Proof.
  induction 1 as [|c w _ IH]; [now left|].
  unfold iter. destruct (_cache c) as [|x cache] eqn:Hc.
  - destruct (_src w) as [[xs [ex|]] w'] eqn:Hsrc; rewrite fill_spec;
      cbn [fst snd _cache app]; [now left|].
    right. now exists w, w'.
  - cbn [fst snd]. rewrite Hc. exact IH.
Qed.

(** X28. After a first enumeration that ran to the end of the upstream
    and yielded at least one element, the wrapper yields the same elements
    on every later enumeration without running the upstream: the world is
    left as it was. *)
Theorem cache_replays_a_complete_run (w w' : World) (xs : list val) :
  _src w = ((xs, None), w') -> xs <> [] ->
  exists c,
    iter World _src init w = ((xs, None), c, w')
    /\ forall w2, iter World _src c w2 = ((xs, None), c, w2).
Proof.
  intros Hsrc Hne. unfold iter, init. cbn [_cache]. rewrite Hsrc, fill_spec.
  eexists. split; [reflexivity|].
  intros w2. cbn [_cache app]. destruct xs; [contradiction|reflexivity].
Qed.

End MoreCaching.

(** ** Attempts, continued *)
Section MoreAttempts.
Import lamb attempt props_rest.
Context `{PyBuiltins}.


(** X30. [and_then] keeps an attempt well formed: from an attempt with
    exactly one branch set it returns one with exactly one branch set; a
    failed attempt comes back as it is, and the function is not called. *)
Theorem and_then_keeps_one_branch (a : Attempt) (g : FunctionOrLambda)
    (kw : kwargs) :
  one_branch a = true ->
  one_branch (and_then a g kw) = true
  /\ (succeeded a = false -> and_then a g kw = a).
Proof.
  unfold one_branch, and_then, succeeded, failed, try_.
  destruct a as [[v|] [e|]]; cbn; try discriminate; intros _.
  - split; [|discriminate]. now destruct (call (as_fcn g) [v] kw).
  - now split.
Qed.

End MoreAttempts.

(** ** The further properties on concrete inputs *)
Section MoreExamples.
Import lamb pipeline indexing check props props_rest.
Existing Instance demo.builtins.

(** [e_.is_none().invoke(None, a=1)] is [e_.is_none().invoke(None)], and
    [e_.is_none().invoke(None, instance=2)] is refused. *)
Lemma invoke_ignores_kwargs_witness :
  call (f (is_none e_)) [VNone] [("a", VInt 1)] = call (f (is_none e_)) [VNone] []
  /\ call (f (is_none e_)) [VNone] [] = Ok (VBool true)
  /\ call (f (is_none e_)) [VNone] [("a", VInt 1); ("instance", VInt 2)]
     = Raise (TypeError
                "Lambda.invoke() got multiple values for argument 'instance'").
Proof.
  split; [|split; [reflexivity|]].
  - exact (invoke_ignores_kwargs (is_none e_) VNone [("a", VInt 1)]).
  - exact (invoke_ignores_kwargs (is_none e_) VNone
             [("a", VInt 1); ("instance", VInt 2)]).
Defined.

Lemma not_none_negates_is_none_witness :
  is_chain start = true
  /\ invoke (not_none start) VNone [] = invoke (negate (is_none start)) VNone []
  /\ invoke (not_none start) (VInt 0) [] = Ok (VBool true).
Proof.
  split; [reflexivity|].
  destruct (not_none_negates_is_none start VNone [] eq_refl) as [Hsame _].
  split; [exact Hsame|].
  exact (proj2 (proj2 (not_none_negates_is_none start (VInt 0) [] eq_refl)
                      (VInt 0) eq_refl)).
Defined.

Lemma truthy_falsey_coerce_witness :
  is_chain start = true
  /\ invoke (lamb_rest.falsey start) (VStr "") [] = invoke (negate start) (VStr "") []
  /\ invoke (lamb_rest.truthy start) (VList [VInt 0]) [] = Ok (VBool true).
Proof.
  split; [reflexivity|].
  split.
  - exact (proj1 (truthy_falsey_coerce start (VStr "") [] eq_refl)).
  - exact (proj1 (proj2 (proj2 (truthy_falsey_coerce start (VList [VInt 0]) [] eq_refl))
                        (VList [VInt 0]) eq_refl)).
Defined.

Lemma between_open_is_narrowest_witness :
  is_chain start = true
  /\ invoke start (VInt 5) [] = Ok (VInt 5)
  /\ num_of (VInt 2) = Some (inject_Z 2)
  /\ num_of (VInt 5) = Some (inject_Z 5)
  /\ num_of (VInt 10) = Some (inject_Z 10)
  /\ exists n_open n,
      between start (VTuple [VInt 2; VInt 10]) None true false = Ok n_open
      /\ between start (VInt 2) (Some (VInt 10)) true true = Ok n
      /\ (invoke n_open (VInt 5) [] = Ok (VBool true) ->
          invoke n (VInt 5) [] = Ok (VBool true)).
Proof.
  repeat (split; [reflexivity|]).
  exact (between_open_is_narrowest start (VInt 5) (VInt 5) (VInt 2) (VInt 10) []
           (inject_Z 2) (inject_Z 5) (inject_Z 10) true true true false
           eq_refl eq_refl eq_refl eq_refl eq_refl).
Defined.

Lemma between_reversed_bounds_is_empty_witness :
  is_chain start = true
  /\ invoke start (VInt 5) [] = Ok (VInt 5)
  /\ (inject_Z 2 < inject_Z 10)%Q
  /\ exists n,
      between start (VInt 10) (Some (VInt 2)) true true = Ok n
      /\ invoke n (VInt 5) [] = Ok (VBool false).
Proof.
  repeat (split; [reflexivity|]).
  exact (between_reversed_bounds_is_empty start (VInt 5) (VInt 5) (VInt 10) (VInt 2) []
           (inject_Z 10) (inject_Z 5) (inject_Z 2) true true
           eq_refl eq_refl eq_refl eq_refl eq_refl eq_refl).
Defined.

Lemma between_pair_needs_two_elements_witness :
  List.length [VInt 1; VInt 2; VInt 3] <> 2%nat
  /\ (exists m, interpret_between (VTuple [VInt 1; VInt 2; VInt 3]) None true false
                = Raise (ValueError m)).
Proof.
  assert (Hlen : List.length [VInt 1; VInt 2; VInt 3] <> 2%nat) by discriminate.
  split; [exact Hlen|].
  exact (proj1 (between_pair_needs_two_elements start [VInt 1; VInt 2; VInt 3]
                  true false Hlen)).
Defined.

Lemma fullmatch_between_characterised_witness :
  fullmatch_between " (1_0 ,2.5] " = Some ("("%char, "1_0", "2.5", "]"%char)
  /\ exists w0 a w1 w2 w3 w4 b w5,
      " (1_0 ,2.5] " = interval_text w0 a w1 "1_0" w2 w3 "2.5" w4 b w5
      /\ "("%char = left_bracket a /\ "]"%char = right_bracket b
      /\ all_chars is_space w0 = true /\ all_chars is_space w1 = true
      /\ all_chars is_space w2 = true /\ all_chars is_space w3 = true
      /\ all_chars is_space w4 = true /\ all_chars is_space w5 = true
      /\ number_text "1_0" = true /\ number_text "2.5" = true.
Proof.
  split; [reflexivity|].
  exact (proj1 (fullmatch_between_characterised " (1_0 ,2.5] " "(" "]" "1_0" "2.5")
               eq_refl).
Defined.

(** The pattern lets [1.2.3] through as a bound, and [float] refuses it;
    [1.5] and [10] are read. *)
Lemma interval_text_reads_brackets_and_floats_witness :
  number_text "2" = true /\ number_text "1.2.3" = true
  /\ number_text "1.5" = true /\ number_text "10" = true
  /\ interpret_between (VStr "(2,1.2.3]") None true false
     = Raise (ValueError "could not convert string to float: '1.2.3'")
  /\ interpret_between (VStr "[1.5, 10)") None false true
     = Ok (VFloat (3 # 2), VFloat (inject_Z 10), true, false)
  /\ interpret_between (VStr "(2, 10]") None true false
     = Ok (VFloat (inject_Z 2), VFloat (inject_Z 10), false, true).
Proof.
  split; [reflexivity|]. split; [reflexivity|].
  split; [reflexivity|]. split; [reflexivity|].
  split; [|split].
  - exact (interval_text_reads_brackets_and_floats "" "" "2" "" "" "1.2.3" "" ""
             false true true false eq_refl eq_refl eq_refl eq_refl eq_refl eq_refl
             eq_refl eq_refl).
  - exact (interval_text_reads_brackets_and_floats "" "" "1.5" "" " " "10" "" ""
             true false false true eq_refl eq_refl eq_refl eq_refl eq_refl eq_refl
             eq_refl eq_refl).
  - exact (interval_text_reads_brackets_and_floats "" "" "2" "" " " "10" "" ""
             false true true false eq_refl eq_refl eq_refl eq_refl eq_refl eq_refl
             eq_refl eq_refl).
Defined.







Lemma flatten_concatenates_witness :
  let P := pipeline "src" in
  let s := VList [VList [VInt 1; VInt 2; VInt 3]; VList []; VList [VInt 4]] in
  enumeration P s
  = (List.map VList [[VInt 1; VInt 2; VInt 3]; []; [VInt 4]], None)
  /\ apply (flatten P) s = (List.map VInt [1; 2; 3; 4], None).
Proof.
  intros P s. split; [reflexivity|].
  exact (flatten_concatenates P s [[VInt 1; VInt 2; VInt 3]; []; [VInt 4]] eq_refl).
Defined.

Lemma zip_with_pairs_up_to_the_shorter_witness :
  let P := pipeline "src" in
  enumeration P (demo.range 3) = (List.map VInt [0; 1; 2], None)
  /\ iter_ (VStr "ab") = Ok ([VStr "a"; VStr "b"], None)
  /\ apply (zip_with P (VStr "ab")) (demo.range 3)
     = ([VTuple [VInt 0; VStr "a"]; VTuple [VInt 1; VStr "b"]], None)
  /\ List.length (fst (apply (zip_with P (VStr "ab")) (demo.range 3))) = 2%nat.
Proof.
  intros P. split; [reflexivity|]. split; [reflexivity|].
  exact (zip_with_pairs_up_to_the_shorter P (VStr "ab") (demo.range 3)
           (List.map VInt [0; 1; 2]) [VStr "a"; VStr "b"] eq_refl eq_refl).
Defined.

Lemma zip_with_fails_early_chain_fails_late_witness :
  let P := pipeline "src" in
  let ex := TypeError "'int' object is not iterable" in
  enumeration P (demo.range 2) = (List.map VInt [0; 1], None)
  /\ iter_ (VInt 5) = Raise ex
  /\ apply (zip_with P (VInt 5)) (demo.range 2)
     = ([], Some (mkExn "TypeError"
                    "Failed to iterate to item 0 in flo.Pipeline(src zip(<class 'int'>[?])"
                    (Some ex)))
  /\ apply (chain P (VInt 5)) (demo.range 2)
     = (List.map VInt [0; 1],
        Some (mkExn "TypeError"
                "Failed to iterate to item 2 in flo.Pipeline(src chain(<class 'int'>[?])"
                (Some ex))).
Proof.
  intros P ex. split; [reflexivity|]. split; [reflexivity|].
  exact (zip_with_fails_early_chain_fails_late P (VInt 5) (demo.range 2)
           (List.map VInt [0; 1]) ex eq_refl eq_refl).
Defined.








Lemma cache_is_empty_or_a_complete_run_witness :
  let c := snd (fst (it2.iter nat demo_rest.counting_source it2.init 4%nat)) in
  reachable nat demo_rest.counting_source c
  /\ it2._cache c = [VInt 4]
  /\ (it2._cache c = []
      \/ exists w w', demo_rest.counting_source w = ((it2._cache c, None), w')).
Proof.
  intros c.
  assert (Hreach : reachable nat demo_rest.counting_source c)
    by (apply reachable_iter, reachable_init).
  split; [exact Hreach|]. split; [reflexivity|].
  exact (cache_is_empty_or_a_complete_run nat demo_rest.counting_source c Hreach).
Defined.

Lemma cache_replays_a_complete_run_witness :
  demo_rest.counting_source 4%nat = (([VInt 4], None), 5%nat)
  /\ [VInt 4] <> []
  /\ exists c,
      it2.iter nat demo_rest.counting_source it2.init 4%nat = (([VInt 4], None), c, 5%nat)
      /\ forall w2, it2.iter nat demo_rest.counting_source c w2 = (([VInt 4], None), c, w2).
Proof.
  assert (Hne : [VInt 4] <> []) by discriminate.
  split; [reflexivity|]. split; [exact Hne|].
  exact (cache_replays_a_complete_run nat demo_rest.counting_source 4%nat 5%nat
           [VInt 4] eq_refl Hne).
Defined.

Lemma and_then_keeps_one_branch_witness :
  let a := attempt.of_exception (ValueError "no") in
  one_branch a = true
  /\ one_branch (attempt.and_then a (IsCallable demo.len_) []) = true
  /\ attempt.and_then a (IsCallable demo.len_) [] = a.
Proof.
  intros a. split; [reflexivity|].
  destruct (and_then_keeps_one_branch a (IsCallable demo.len_) [] eq_refl)
    as [Hone Hsame].
  split; [exact Hone|]. exact (Hsame eq_refl).
Defined.

(** The scenarios of the specification for the two indexes, with
    [first], the first letter of a word. *)
Example index_of_fruits :
  let first := IsCallable (PyFunction "first" ""
    (fun args _ => match args with
                   | [VStr (String c _)] => Ok (VStr (String c ""))
                   | _ => Raise (mkExn "IndexError" "string index out of range" None)
                   end)) in
  let fruits := VList (List.map VStr ["apples"; "bananas"; "apricots"; "grapes";
                                      "grapefruit"]) in
  index fruits first []
  = Ok [(VStr "a", [VStr "apples"; VStr "apricots"]);
        (VStr "b", [VStr "bananas"]);
        (VStr "g", [VStr "grapes"; VStr "grapefruit"])]
  /\ exists m inner, unique_index fruits first [] = Raise (mkExn "KeyError" m inner).
Proof. split; [reflexivity|]. eexists. eexists. reflexivity. Qed.

End MoreExamples.
